(** * PCIe FPGA board driver: probe / remove lifecycle

    A shallow embedding of [fpga_pci.c] and [fpga_pci_pinned.c].  The two
    drivers are straight-line sequences of calls into the host kernel, so
    the embedding is a small state-and-trace monad over a model of the
    host's bookkeeping: every kernel call made by the driver is recorded,
    with its arguments and its result, in the trace of the run. *)

From Stdlib Require Import ZArith List String Bool Lia.
Import ListNotations.
Open Scope Z_scope.

(** ** The host kernel *)

Module Host.

(** [struct pci_device_id]: one row of a driver's matching table. *)
Record pci_device_id := {
  id_vendor : Z;
  id_device : Z;
  id_subvendor : Z;
  id_subdevice : Z;
  id_class : Z;
  id_class_mask : Z;
  id_driver_data : Z
}.

(** Modelled from the spec: the kernel's wildcard [PCI_ANY_ID], [(~0)] read
    as a 32-bit unsigned field; its header is not part of the repository. *)
Definition PCI_ANY_ID : Z := 0xffffffff.

(** Modelled from the spec: the kernel macro [PCI_DEVICE(vend, dev)], which
    fixes vendor and device and leaves the subsystem ids wild; its header is
    not part of the repository. *)
Definition PCI_DEVICE (vend dev : Z) : pci_device_id :=
  {| id_vendor := vend; id_device := dev;
     id_subvendor := PCI_ANY_ID; id_subdevice := PCI_ANY_ID;
     id_class := 0; id_class_mask := 0; id_driver_data := 0 |}.

(** The initialiser [{ 0 }]: the all-zero row that ends a table. *)
Definition pci_id_zero : pci_device_id :=
  {| id_vendor := 0; id_device := 0; id_subvendor := 0; id_subdevice := 0;
     id_class := 0; id_class_mask := 0; id_driver_data := 0 |}.

(** [struct pci_dev], the fields the drivers and the host primitives touch.
    [devfn] stands for the identity of the device (the value of the pointer
    [pdev], also passed as [&pdev->dev] and as the interrupt cookie). *)
Record pci_dev := {
  devfn : Z;
  vendor : Z;
  device : Z;
  subsystem_vendor : Z;
  subsystem_device : Z;
  dev_class : Z;
  irq : Z;
  resource_start : Z -> Z;
  resource_len : Z -> Z;
  enable_cnt : nat;
  regions_owner : option string;
  driver_data : Z
}.

Inductive cache_attr := Uncached | WriteCombined.

(** A live virtual mapping of device memory. *)
Record mapping := {
  m_va : Z;
  m_pa : Z;
  m_len : Z;
  m_attr : cache_attr
}.

(** A live DMA-coherent buffer. *)
Record dma_buf := {
  d_dev : Z;
  d_size : Z;
  d_cpu : Z;
  d_bus : Z
}.

(** Code addresses that can be registered as interrupt handlers. *)
Inductive irq_handler_t :=
| handler_fpga_pci_irq_handler
| handler_foreign (owner : Z).

(** A registered interrupt action. *)
Record irqaction := {
  a_irq : Z;
  a_handler : irq_handler_t;
  a_flags : Z;
  a_name : string;
  a_dev_id : Z
}.

Inductive irqreturn_t := IRQ_NONE | IRQ_HANDLED | IRQ_WAKE_THREAD.

Inductive gfp_t := GFP_KERNEL | GFP_ATOMIC.

Inductive loglevel := KERN_ERR | KERN_INFO.

(** Modelled from the spec: the kernel constants [IRQF_SHARED] ("shared
    line"), [ENOMEM] and [EBUSY], whose headers are not part of the
    repository. *)
Definition IRQF_SHARED : Z := 0x80.
Definition ENOMEM : Z := 12.
Definition EBUSY : Z := 16.

(** Modelled from the spec: the C conversion of an [unsigned int] to [int]
    (as in [int irq = pdev->irq]), which the compiler supplies: the value
    read as a 32-bit two's complement number.  Converting the result back to
    [unsigned int], as a call with an [unsigned int] parameter does, gives
    the original value. *)
Definition int_of_unsigned (x : Z) : Z :=
  if x mod 0x100000000 <? 0x80000000
  then x mod 0x100000000
  else x mod 0x100000000 - 0x100000000.

Arguments int_of_unsigned : simpl never.

(** The host's state as far as one device is concerned.  [faults] is the
    host's decision for each coming fallible call, in call order ([0]: the
    call succeeds; exhausted: it succeeds); [next_va] and [next_bus] are the
    next unused kernel-virtual and bus addresses; [stack_junk] is the
    indeterminate content of an uninitialised automatic variable. *)
Record machine := {
  pdev : pci_dev;
  iomaps : list mapping;
  dma_pool : list dma_buf;
  irq_actions : list irqaction;
  next_va : positive;
  next_bus : positive;
  faults : list Z;
  stack_junk : Z
}.

(** Every call into the host, with its arguments and (last) its result. *)
Inductive event :=
| EvEnable (dev : Z) (ret : Z)
| EvRequestRegions (dev : Z) (name : string) (ret : Z)
| EvIomap (dev : Z) (bar : Z) (maxlen : Z) (ret : Z)
| EvIoremapWc (pa : Z) (size : Z) (ret : Z)
| EvDmaAlloc (dev : Z) (size : Z) (gfp : gfp_t) (ret : Z) (handle : Z)
| EvSetDrvdata (dev : Z) (data : Z)
| EvRequestIrq (line : Z) (h : irq_handler_t) (flags : Z) (name : string)
               (dev_id : Z) (ret : Z)
| EvFreeIrq (line : Z) (dev_id : Z)
| EvDmaFree (dev : Z) (size : Z) (cpu : Z) (handle : Z)
| EvIounmap (va : Z)
| EvPciIounmap (dev : Z) (va : Z)
| EvReleaseRegions (dev : Z)
| EvDisable (dev : Z)
| EvPrintk (lvl : loglevel) (fmt : string) (args : list Z).

(** *** State and trace monad *)

Definition K (A : Type) : Type := machine -> A * list event * machine.

Definition ret {A} (a : A) : K A := fun m => (a, [], m).

Definition bind {A B} (c : K A) (f : A -> K B) : K B :=
  fun m =>
    let '(a, t1, m1) := c m in
    let '(b, t2, m2) := f a m1 in
    (b, t1 ++ t2, m2).

Definition emit (e : event) : K unit := fun m => (tt, [e], m).
Definition gets {A} (f : machine -> A) : K A := fun m => (f m, [], m).
Definition modify (f : machine -> machine) : K unit := fun m => (tt, [], f m).

Declare Scope kernel_scope.
Delimit Scope kernel_scope with kernel.
Notation "x <- c1 ;; c2" := (bind c1 (fun x => c2))
  (at level 61, c1 at next level, right associativity) : kernel_scope.
Notation "' pat <- c1 ;; c2" := (bind c1 (fun x => match x with pat => c2 end))
  (at level 61, pat pattern, c1 at next level, right associativity) : kernel_scope.
Notation "c1 ;; c2" := (bind c1 (fun _ => c2))
  (at level 61, right associativity) : kernel_scope.
Open Scope kernel_scope.

(** *** Field updates *)

Definition set_enable_cnt (n : nat) (d : pci_dev) : pci_dev :=
  {| devfn := devfn d; vendor := vendor d; device := device d;
     subsystem_vendor := subsystem_vendor d;
     subsystem_device := subsystem_device d; dev_class := dev_class d;
     irq := irq d; resource_start := resource_start d;
     resource_len := resource_len d; enable_cnt := n;
     regions_owner := regions_owner d; driver_data := driver_data d |}.

Definition set_regions_owner (o : option string) (d : pci_dev) : pci_dev :=
  {| devfn := devfn d; vendor := vendor d; device := device d;
     subsystem_vendor := subsystem_vendor d;
     subsystem_device := subsystem_device d; dev_class := dev_class d;
     irq := irq d; resource_start := resource_start d;
     resource_len := resource_len d; enable_cnt := enable_cnt d;
     regions_owner := o; driver_data := driver_data d |}.

Definition set_driver_data (p : Z) (d : pci_dev) : pci_dev :=
  {| devfn := devfn d; vendor := vendor d; device := device d;
     subsystem_vendor := subsystem_vendor d;
     subsystem_device := subsystem_device d; dev_class := dev_class d;
     irq := irq d; resource_start := resource_start d;
     resource_len := resource_len d; enable_cnt := enable_cnt d;
     regions_owner := regions_owner d; driver_data := p |}.

Definition with_pdev (f : pci_dev -> pci_dev) (m : machine) : machine :=
  {| pdev := f (pdev m); iomaps := iomaps m; dma_pool := dma_pool m;
     irq_actions := irq_actions m; next_va := next_va m;
     next_bus := next_bus m; faults := faults m;
     stack_junk := stack_junk m |}.

Definition set_iomaps (l : list mapping) (m : machine) : machine :=
  {| pdev := pdev m; iomaps := l; dma_pool := dma_pool m;
     irq_actions := irq_actions m; next_va := next_va m;
     next_bus := next_bus m; faults := faults m;
     stack_junk := stack_junk m |}.

Definition set_dma_pool (l : list dma_buf) (m : machine) : machine :=
  {| pdev := pdev m; iomaps := iomaps m; dma_pool := l;
     irq_actions := irq_actions m; next_va := next_va m;
     next_bus := next_bus m; faults := faults m;
     stack_junk := stack_junk m |}.

Definition set_irq_actions (l : list irqaction) (m : machine) : machine :=
  {| pdev := pdev m; iomaps := iomaps m; dma_pool := dma_pool m;
     irq_actions := l; next_va := next_va m;
     next_bus := next_bus m; faults := faults m;
     stack_junk := stack_junk m |}.

Definition set_next_va (p : positive) (m : machine) : machine :=
  {| pdev := pdev m; iomaps := iomaps m; dma_pool := dma_pool m;
     irq_actions := irq_actions m; next_va := p;
     next_bus := next_bus m; faults := faults m;
     stack_junk := stack_junk m |}.

Definition set_next_bus (p : positive) (m : machine) : machine :=
  {| pdev := pdev m; iomaps := iomaps m; dma_pool := dma_pool m;
     irq_actions := irq_actions m; next_va := next_va m;
     next_bus := p; faults := faults m;
     stack_junk := stack_junk m |}.

Definition set_faults (l : list Z) (m : machine) : machine :=
  {| pdev := pdev m; iomaps := iomaps m; dma_pool := dma_pool m;
     irq_actions := irq_actions m; next_va := next_va m;
     next_bus := next_bus m; faults := l;
     stack_junk := stack_junk m |}.

(** *** Host primitives

    None of these is defined in the repository: they are the host runtime's
    device-model contract, and each is modelled from what the kernel
    documents for it. *)

(** The host's decision for the next fallible call. *)
Definition next_fault : K Z :=
  fs <- gets faults ;;
  match fs with
  | [] => ret 0
  | f :: rest => modify (set_faults rest) ;; ret f
  end.

(** A fresh range of [len] kernel-virtual addresses. *)
Definition fresh_va (len : Z) : K Z :=
  p <- gets next_va ;;
  modify (set_next_va (p + Z.to_pos len)) ;;
  ret (Z.pos p).

(** A fresh range of [len] bus addresses. *)
Definition fresh_bus (len : Z) : K Z :=
  p <- gets next_bus ;;
  modify (set_next_bus (p + Z.to_pos len)) ;;
  ret (Z.pos p).

Fixpoint drop_mapping (va : Z) (l : list mapping) : list mapping :=
  match l with
  | [] => []
  | x :: rest => if m_va x =? va then rest else x :: drop_mapping va rest
  end.

Definition same_buf (dev size cpu bus : Z) (b : dma_buf) : bool :=
  (d_dev b =? dev) && (d_size b =? size) && (d_cpu b =? cpu) && (d_bus b =? bus).

Fixpoint drop_buf (dev size cpu bus : Z) (l : list dma_buf) : list dma_buf :=
  match l with
  | [] => []
  | x :: rest =>
      if same_buf dev size cpu bus x then rest
      else x :: drop_buf dev size cpu bus rest
  end.

Fixpoint drop_action (line dev_id : Z) (l : list irqaction) : list irqaction :=
  match l with
  | [] => []
  | x :: rest =>
      if (a_irq x =? line) && (a_dev_id x =? dev_id) then rest
      else x :: drop_action line dev_id rest
  end.

(** Modelled from the spec: the host primitive [pci_enable_device] ("enable
    the device"), absent from the repository: returns 0 and counts one more
    enable, or returns the host's error code and changes nothing. *)
Definition pci_enable_device : K Z :=
  d <- gets pdev ;;
  e <- next_fault ;;
  (if e =? 0
   then modify (with_pdev (set_enable_cnt (S (enable_cnt d))))
   else ret tt) ;;
  emit (EvEnable (devfn d) e) ;;
  ret e.

(** Modelled from the spec: the host primitive [pci_disable_device], absent
    from the repository: drops one enable. *)
Definition pci_disable_device : K unit :=
  d <- gets pdev ;;
  modify (with_pdev (set_enable_cnt (Nat.pred (enable_cnt d)))) ;;
  emit (EvDisable (devfn d)).

(** Modelled from the spec: the host primitive [pci_request_regions]
    ("reserve the device's address regions exclusively for this driver;
    fails if another owner holds them"), absent from the repository. *)
Definition pci_request_regions (name : string) : K Z :=
  d <- gets pdev ;;
  e <- next_fault ;;
  let r := if e =? 0
           then match regions_owner d with Some _ => - EBUSY | None => 0 end
           else e in
  (if r =? 0
   then modify (with_pdev (set_regions_owner (Some name)))
   else ret tt) ;;
  emit (EvRequestRegions (devfn d) name r) ;;
  ret r.

(** Modelled from the spec: the host primitive [pci_release_regions], absent
    from the repository. *)
Definition pci_release_regions : K unit :=
  d <- gets pdev ;;
  modify (with_pdev (set_regions_owner None)) ;;
  emit (EvReleaseRegions (devfn d)).

(** Modelled from the spec: the kernel macros [pci_resource_start] and
    [pci_resource_len], absent from the repository: base physical address
    and length of a region of the device. *)
Definition pci_resource_start (bar : Z) : K Z :=
  d <- gets pdev ;; ret (resource_start d bar).

Definition pci_resource_len (bar : Z) : K Z :=
  d <- gets pdev ;; ret (resource_len d bar).

(** Modelled from the spec: the host primitive [pci_iomap] ("map a region as
    MMIO, non-cacheable"), absent from the repository: maps region [bar]
    from its base, over its length cut to [maxlen] when that is not zero;
    NULL for an empty or unassigned region or when the host cannot map. *)
Definition pci_iomap (bar maxlen : Z) : K Z :=
  d <- gets pdev ;;
  e <- next_fault ;;
  let start := resource_start d bar in
  let len0 := resource_len d bar in
  let len := if negb (maxlen =? 0) && (maxlen <? len0) then maxlen else len0 in
  r <- (if negb (e =? 0) || (len0 <=? 0) || (start =? 0)
        then ret 0
        else
          va <- fresh_va len ;;
          l <- gets iomaps ;;
          modify (set_iomaps ({| m_va := va; m_pa := start; m_len := len;
                                 m_attr := Uncached |} :: l)) ;;
          ret va) ;;
  emit (EvIomap (devfn d) bar maxlen r) ;;
  ret r.

(** Modelled from the spec: the host primitive [ioremap_wc] ("map a physical
    range write-combined"), absent from the repository: NULL for an empty
    range or when the host cannot map. *)
Definition ioremap_wc (pa size : Z) : K Z :=
  e <- next_fault ;;
  r <- (if negb (e =? 0) || (size <=? 0)
        then ret 0
        else
          va <- fresh_va size ;;
          l <- gets iomaps ;;
          modify (set_iomaps ({| m_va := va; m_pa := pa; m_len := size;
                                 m_attr := WriteCombined |} :: l)) ;;
          ret va) ;;
  emit (EvIoremapWc pa size r) ;;
  ret r.

(** Modelled from the spec: the host primitive [iounmap], absent from the
    repository: ends the mapping that starts at [va]; nothing for NULL. *)
Definition iounmap (va : Z) : K unit :=
  l <- gets iomaps ;;
  (if va =? 0 then ret tt else modify (set_iomaps (drop_mapping va l))) ;;
  emit (EvIounmap va).

(** Modelled from the spec: the host primitive [pci_iounmap], absent from
    the repository: as [iounmap], for a mapping made by [pci_iomap]. *)
Definition pci_iounmap (va : Z) : K unit :=
  d <- gets pdev ;;
  l <- gets iomaps ;;
  (if va =? 0 then ret tt else modify (set_iomaps (drop_mapping va l))) ;;
  emit (EvPciIounmap (devfn d) va).

(** Modelled from the spec: the host primitive [dma_alloc_coherent]
    ("allocate a DMA-coherent buffer bound to the device, yielding both a
    CPU-visible address and a device-bus address"), absent from the
    repository.  [handle] is the content of the out-parameter before the
    call; the result is the returned pointer and the content after it (left
    as it was when the call fails). *)
Definition dma_alloc_coherent (size handle : Z) (gfp : gfp_t) : K (Z * Z) :=
  d <- gets pdev ;;
  e <- next_fault ;;
  r <- (if negb (e =? 0)
        then ret (0, handle)
        else
          cpu <- fresh_va size ;;
          bus <- fresh_bus size ;;
          l <- gets dma_pool ;;
          modify (set_dma_pool ({| d_dev := devfn d; d_size := size;
                                   d_cpu := cpu; d_bus := bus |} :: l)) ;;
          ret (cpu, bus)) ;;
  emit (EvDmaAlloc (devfn d) size gfp (fst r) (snd r)) ;;
  ret r.

(** Modelled from the spec: the host primitive [dma_free_coherent], absent
    from the repository: frees the buffer with that size, CPU address and
    bus address; nothing for a NULL CPU address. *)
Definition dma_free_coherent (size cpu handle : Z) : K unit :=
  d <- gets pdev ;;
  l <- gets dma_pool ;;
  (if cpu =? 0 then ret tt
   else modify (set_dma_pool (drop_buf (devfn d) size cpu handle l))) ;;
  emit (EvDmaFree (devfn d) size cpu handle).

(** Modelled from the spec: the host primitives [pci_set_drvdata] and
    [pci_get_drvdata], absent from the repository: the one pointer-sized
    slot of per-device driver state. *)
Definition pci_set_drvdata (data : Z) : K unit :=
  d <- gets pdev ;;
  modify (with_pdev (set_driver_data data)) ;;
  emit (EvSetDrvdata (devfn d) data).

Definition pci_get_drvdata : K Z :=
  d <- gets pdev ;; ret (driver_data d).

(** Modelled from the spec: the host primitive [request_irq] ("register the
    interrupt handler on a line"), absent from the repository: returns 0 and
    records the action, or returns the host's error code. *)
Definition request_irq (line : Z) (h : irq_handler_t) (flags : Z)
    (name : string) (dev_id : Z) : K Z :=
  e <- next_fault ;;
  (if e =? 0
   then
     l <- gets irq_actions ;;
     modify (set_irq_actions ({| a_irq := line; a_handler := h;
                                 a_flags := flags; a_name := name;
                                 a_dev_id := dev_id |} :: l))
   else ret tt) ;;
  emit (EvRequestIrq line h flags name dev_id e) ;;
  ret e.

(** Modelled from the spec: the host primitive [free_irq], absent from the
    repository: removes the action registered on [line] with that cookie. *)
Definition free_irq (line dev_id : Z) : K unit :=
  l <- gets irq_actions ;;
  modify (set_irq_actions (drop_action line dev_id l)) ;;
  emit (EvFreeIrq line dev_id).

(** Modelled from the spec: the kernel's [pr_err] and [pr_info], absent from
    the repository: one line of the kernel log, format string as written in
    the source. *)
Definition pr_err (fmt : string) (args : list Z) : K unit :=
  emit (EvPrintk KERN_ERR fmt args).

Definition pr_info (fmt : string) (args : list Z) : K unit :=
  emit (EvPrintk KERN_INFO fmt args).

(** Modelled from the spec: the host's matching machinery
    ([pci_match_one_device] and [pci_match_id]), absent from the repository:
    a row matches a device when each of its fields is wild or equal, and a
    table is read up to its all-zero row. *)
Definition pci_match_one_device (id : pci_device_id) (d : pci_dev) : bool :=
  ((id_vendor id =? PCI_ANY_ID) || (id_vendor id =? vendor d)) &&
  ((id_device id =? PCI_ANY_ID) || (id_device id =? device d)) &&
  ((id_subvendor id =? PCI_ANY_ID) || (id_subvendor id =? subsystem_vendor d)) &&
  ((id_subdevice id =? PCI_ANY_ID) || (id_subdevice id =? subsystem_device d)) &&
  (Z.land (Z.lxor (id_class id) (dev_class d)) (id_class_mask id) =? 0).

Fixpoint pci_match_id (ids : list pci_device_id) (d : pci_dev)
    : option pci_device_id :=
  match ids with
  | [] => None
  | id :: rest =>
      if (id_vendor id =? 0) && (id_subvendor id =? 0) && (id_class_mask id =? 0)
      then None
      else if pci_match_one_device id d then Some id
      else pci_match_id rest d
  end.

End Host.

Import Host.

(** ** [fpga_pci.c]: the driver without DMA buffer and interrupt *)

Module FpgaPci.

Definition DRIVER_NAME : string := "fpga_pci".

Definition fpga_pci_ids : list pci_device_id :=
  [ PCI_DEVICE 0x1234 0x5678; pci_id_zero ].

Definition fpga_pci_probe (ent : pci_device_id) : K Z :=
  err <- pci_enable_device ;;
  if negb (err =? 0) then
    pr_err "Failed to enable PCI device\n" [] ;;
    ret err
  else
  err <- pci_request_regions DRIVER_NAME ;;
  if negb (err =? 0) then
    pr_err "Failed to request PCI regions\n" [] ;;
    pci_disable_device ;;
    ret err
  else
  len <- pci_resource_len 0 ;;
  hw_addr <- pci_iomap 0 len ;;
  if hw_addr =? 0 then
    pr_err "Failed to map PCI I/O memory\n" [] ;;
    pci_release_regions ;;
    pci_disable_device ;;
    ret (- ENOMEM)
  else
  pci_set_drvdata hw_addr ;;
  pr_info "FPGA PCI device initialized successfully\n" [] ;;
  ret 0.

Definition fpga_pci_remove : K unit :=
  hw_addr <- pci_get_drvdata ;;
  pci_iounmap hw_addr ;;
  pci_release_regions ;;
  pci_disable_device ;;
  pr_info "FPGA PCI device removed\n" [].

End FpgaPci.

(** ** [fpga_pci_pinned.c]: the driver with write-combined alias, pinned
    DMA buffer and interrupt *)

Module FpgaPciPinned.

Definition DRIVER_NAME : string := "fpga_pci".

Definition fpga_pci_ids : list pci_device_id :=
  [ PCI_DEVICE 0x1234 0x5678; pci_id_zero ].

Definition fpga_pci_irq_handler (irq : Z) (dev_id : Z) : K irqreturn_t :=
  pr_info "FPGA PCI interrupt handled\n" [] ;;
  ret IRQ_HANDLED.

Definition fpga_pci_probe (ent : pci_device_id) : K Z :=
  dma_handle <- gets stack_junk ;;
  let dma_size := 4096 in
  err <- pci_enable_device ;;
  if negb (err =? 0) then
    pr_err "Failed to enable PCI device\n" [] ;;
    ret err
  else
  err <- pci_request_regions DRIVER_NAME ;;
  if negb (err =? 0) then
    pr_err "Failed to request PCI regions\n" [] ;;
    pci_disable_device ;;
    ret err
  else
  len <- pci_resource_len 0 ;;
  hw_addr <- pci_iomap 0 len ;;
  if hw_addr =? 0 then
    pr_err "Failed to map PCI I/O memory\n" [] ;;
    pci_release_regions ;;
    pci_disable_device ;;
    ret (- ENOMEM)
  else
  start <- pci_resource_start 0 ;;
  len <- pci_resource_len 0 ;;
  wc_mem <- ioremap_wc start len ;;
  if wc_mem =? 0 then
    pr_err "Failed to map WriteCombined memory\n" [] ;;
    pci_iounmap hw_addr ;;
    pci_release_regions ;;
    pci_disable_device ;;
    ret (- ENOMEM)
  else
  '(dma_buffer, dma_handle) <- dma_alloc_coherent dma_size dma_handle GFP_KERNEL ;;
  if dma_buffer =? 0 then
    pr_err "Failed to allocate pinned DMA memory\n" [] ;;
    iounmap wc_mem ;;
    pci_iounmap hw_addr ;;
    pci_release_regions ;;
    pci_disable_device ;;
    ret (- ENOMEM)
  else
  pci_set_drvdata hw_addr ;;
  line <- gets (fun m => irq (pdev m)) ;;
  let irq := int_of_unsigned line in
  dev_id <- gets (fun m => devfn (pdev m)) ;;
  (* the first parameter of [request_irq] is an [unsigned int]: [irq],
     converted back, is [line] *)
  err <- request_irq line handler_fpga_pci_irq_handler IRQF_SHARED DRIVER_NAME dev_id ;;
  if negb (err =? 0) then
    pr_err "Failed to request IRQ %d\n" [irq] ;;
    dma_free_coherent dma_size dma_buffer dma_handle ;;
    iounmap wc_mem ;;
    pci_iounmap hw_addr ;;
    pci_release_regions ;;
    pci_disable_device ;;
    ret err
  else
  pr_info "FPGA PCI device initialized successfully\n" [] ;;
  ret 0.

Definition fpga_pci_remove : K unit :=
  hw_addr <- pci_get_drvdata ;;
  start <- pci_resource_start 0 ;;
  len <- pci_resource_len 0 ;;
  wc_mem <- ioremap_wc start len ;;
  (* [int irq = pdev->irq] is only passed to [free_irq], whose parameter is
     an [unsigned int]: the value of [pdev->irq] *)
  irq <- gets (fun m => irq (pdev m)) ;;
  dev_id <- gets (fun m => devfn (pdev m)) ;;
  let dma_size := 4096 in
  dma_handle <- gets stack_junk ;;
  '(dma_buffer, dma_handle) <- dma_alloc_coherent dma_size dma_handle GFP_KERNEL ;;
  free_irq irq dev_id ;;
  dma_free_coherent dma_size dma_buffer dma_handle ;;
  iounmap wc_mem ;;
  pci_iounmap hw_addr ;;
  pci_release_regions ;;
  pci_disable_device ;;
  pr_info "FPGA PCI device removed\n" [].

End FpgaPciPinned.

(** ** A sample machine *)

Definition board : pci_dev :=
  {| devfn := 8; vendor := 0x1234; device := 0x5678;
     subsystem_vendor := 0; subsystem_device := 0; dev_class := 0;
     irq := 11;
     resource_start := fun bar => if bar =? 0 then 0xfe000000 else 0;
     resource_len := fun bar => if bar =? 0 then 0x10000 else 0;
     enable_cnt := 0; regions_owner := None; driver_data := 0 |}.

(** The row of the matching table the board is probed with. *)
Definition board_id : pci_device_id := PCI_DEVICE 0x1234 0x5678.

(** The board at boot, nothing held, with the host's coming decisions. *)
Definition boot (fs : list Z) : machine :=
  {| pdev := board; iomaps := []; dma_pool := []; irq_actions := [];
     next_va := 0x1000; next_bus := 0x2000; faults := fs; stack_junk := 0x5a5a |}.

(** ** Observations on runs *)

Definition result {A} (run : A * list event * machine) : A := fst (fst run).
Definition calls {A} (run : A * list event * machine) : list event := snd (fst run).
Definition final {A} (run : A * list event * machine) : machine := snd run.

Fixpoint pick {A B} (f : A -> option B) (l : list A) : list B :=
  match l with
  | [] => []
  | x :: rest =>
      match f x with
      | Some y => y :: pick f rest
      | None => pick f rest
      end
  end.

(** The six acquisition steps of the pinned probe, in source order. *)
Inductive step := Enable | Reserve | MapMmio | MapWc | AllocDma | RegisterIrq.

Definition pipeline : list step :=
  [Enable; Reserve; MapMmio; MapWc; AllocDma; RegisterIrq].

(** The step a host call attempts, and whether it yielded its resource. *)
Definition acquires (e : event) : option (step * bool) :=
  match e with
  | EvEnable _ r => Some (Enable, r =? 0)
  | EvRequestRegions _ _ r => Some (Reserve, r =? 0)
  | EvIomap _ _ _ r => Some (MapMmio, negb (r =? 0))
  | EvIoremapWc _ _ r => Some (MapWc, negb (r =? 0))
  | EvDmaAlloc _ _ _ r _ => Some (AllocDma, negb (r =? 0))
  | EvRequestIrq _ _ _ _ _ r => Some (RegisterIrq, r =? 0)
  | _ => None
  end.

(** The step whose resource a host call gives back. *)
Definition releases (e : event) : option step :=
  match e with
  | EvFreeIrq _ _ => Some RegisterIrq
  | EvDmaFree _ _ _ _ => Some AllocDma
  | EvIounmap _ => Some MapWc
  | EvPciIounmap _ _ => Some MapMmio
  | EvReleaseRegions _ => Some Reserve
  | EvDisable _ => Some Enable
  | _ => None
  end.

(** The status code of a host call that reports one. *)
Definition reported (e : event) : option Z :=
  match e with
  | EvEnable _ r => Some r
  | EvRequestRegions _ _ r => Some r
  | EvRequestIrq _ _ _ _ _ r => Some r
  | _ => None
  end.

(** The pointer stored by a write of the per-device slot. *)
Definition published (e : event) : option Z :=
  match e with
  | EvSetDrvdata _ p => Some p
  | _ => None
  end.

(** The attempts of a run in which [n] steps succeeded: these [n], then the
    next step failing when there is one. *)
Definition outcome_shape (n : nat) : list (step * bool) :=
  map (fun s => (s, true)) (firstn n pipeline) ++
  match nth_error pipeline n with
  | Some s => [(s, false)]
  | None => []
  end.

(** What the host holds for the device. *)
Definition holdings (m : machine)
    : nat * option string * list mapping * list dma_buf * list irqaction :=
  (enable_cnt (pdev m), regions_owner (pdev m), iomaps m, dma_pool m,
   irq_actions m).

Definition live_count (m : machine) : nat :=
  (enable_cnt (pdev m)
   + (match regions_owner (pdev m) with Some _ => 1 | None => 0 end)
   + List.length (iomaps m) + List.length (dma_pool m)
   + List.length (irq_actions m))%nat.

(** *** Device memory seen through the mappings *)

Definition phys_mem := Z -> Z.

Fixpoint translate (l : list mapping) (addr : Z) : option Z :=
  match l with
  | [] => None
  | x :: rest =>
      if (m_va x <=? addr) && (addr <? m_va x + m_len x)
      then Some (m_pa x + (addr - m_va x))
      else translate rest addr
  end.

(** Modelled from the spec: the host accessors [ioread8] and [iowrite8],
    absent from the repository: a byte of device memory read or written
    through a live mapping; memory is a flat store (no write buffering). *)
Definition ioread8 (m : machine) (mem : phys_mem) (addr : Z) : option Z :=
  match translate (iomaps m) addr with
  | Some pa => Some (mem pa)
  | None => None
  end.

Definition iowrite8 (m : machine) (mem : phys_mem) (addr v : Z) : option phys_mem :=
  match translate (iomaps m) addr with
  | Some pa => Some (fun p => if p =? pa then v mod 256 else mem p)
  | None => None
  end.

(** Modelled from the spec: the filter's one operation ("matches(vendor,
    device) -> bool", consulted by the host's matching machinery), absent
    from the repository as a function: the host's table walk applied to a
    driver's table. *)
Definition matches (ids : list pci_device_id) (d : pci_dev) : bool :=
  match pci_match_id ids d with
  | Some _ => true
  | None => false
  end.

Import FpgaPciPinned.

(** *** The runs of the pinned probe

    What the host hands out to a probe that starts in [m]: the MMIO mapping
    sits at the first unused virtual address, the write-combined alias
    behind it, the DMA buffer behind that. *)

Definition dev_of (m : machine) : Z := devfn (pdev m).
Definition bar0_start (m : machine) : Z := resource_start (pdev m) 0.
Definition bar0_len (m : machine) : Z := resource_len (pdev m) 0.
Definition mmio_va (m : machine) : Z := Z.pos (next_va m).
Definition wc_va (m : machine) : Z :=
  Z.pos (next_va m + Z.to_pos (bar0_len m)).
Definition dma_cpu (m : machine) : Z :=
  Z.pos (next_va m + Z.to_pos (bar0_len m) + Z.to_pos (bar0_len m)).
Definition dma_bus (m : machine) : Z := Z.pos (next_bus m).

Definition mmio_mapping (m : machine) : mapping :=
  {| m_va := mmio_va m; m_pa := bar0_start m; m_len := bar0_len m;
     m_attr := Uncached |}.

Definition wc_mapping (m : machine) : mapping :=
  {| m_va := wc_va m; m_pa := bar0_start m; m_len := bar0_len m;
     m_attr := WriteCombined |}.

Definition pinned_buffer (m : machine) : dma_buf :=
  {| d_dev := dev_of m; d_size := 4096; d_cpu := dma_cpu m;
     d_bus := dma_bus m |}.

Definition irq_registration (m : machine) : irqaction :=
  {| a_irq := irq (pdev m); a_handler := handler_fpga_pci_irq_handler;
     a_flags := IRQF_SHARED; a_name := DRIVER_NAME; a_dev_id := dev_of m |}.

(** [m] after [k] fallible host calls that handed out the virtual ranges
    [vas] and the bus ranges [buses], and hold nothing any more. *)
Definition spent (k : nat) (vas buses : list Z) (m : machine) : machine :=
  set_faults (skipn k (faults m))
    (set_next_va (fold_left (fun p s => (p + Z.to_pos s)%positive) vas (next_va m))
       (set_next_bus
          (fold_left (fun p s => (p + Z.to_pos s)%positive) buses (next_bus m))
          m)).

(** The seven ways a probe can go: one per failing step, and success. *)
Inductive probe_outcome (m : machine) : Z * list event * machine -> Prop :=
| enable_failed (e : Z) :
    e <> 0 ->
    probe_outcome m
      (e,
       [EvEnable (dev_of m) e;
        EvPrintk KERN_ERR "Failed to enable PCI device\n" []],
       spent 1 [] [] m)
| reserve_failed (e : Z) :
    e <> 0 ->
    probe_outcome m
      (e,
       [EvEnable (dev_of m) 0;
        EvRequestRegions (dev_of m) DRIVER_NAME e;
        EvPrintk KERN_ERR "Failed to request PCI regions\n" [];
        EvDisable (dev_of m)],
       spent 2 [] [] m)
| mmio_failed :
    probe_outcome m
      (- ENOMEM,
       [EvEnable (dev_of m) 0;
        EvRequestRegions (dev_of m) DRIVER_NAME 0;
        EvIomap (dev_of m) 0 (bar0_len m) 0;
        EvPrintk KERN_ERR "Failed to map PCI I/O memory\n" [];
        EvReleaseRegions (dev_of m);
        EvDisable (dev_of m)],
       spent 3 [] [] m)
| wc_failed :
    probe_outcome m
      (- ENOMEM,
       [EvEnable (dev_of m) 0;
        EvRequestRegions (dev_of m) DRIVER_NAME 0;
        EvIomap (dev_of m) 0 (bar0_len m) (mmio_va m);
        EvIoremapWc (bar0_start m) (bar0_len m) 0;
        EvPrintk KERN_ERR "Failed to map WriteCombined memory\n" [];
        EvPciIounmap (dev_of m) (mmio_va m);
        EvReleaseRegions (dev_of m);
        EvDisable (dev_of m)],
       spent 4 [bar0_len m] [] m)
| dma_failed :
    probe_outcome m
      (- ENOMEM,
       [EvEnable (dev_of m) 0;
        EvRequestRegions (dev_of m) DRIVER_NAME 0;
        EvIomap (dev_of m) 0 (bar0_len m) (mmio_va m);
        EvIoremapWc (bar0_start m) (bar0_len m) (wc_va m);
        EvDmaAlloc (dev_of m) 4096 GFP_KERNEL 0 (stack_junk m);
        EvPrintk KERN_ERR "Failed to allocate pinned DMA memory\n" [];
        EvIounmap (wc_va m);
        EvPciIounmap (dev_of m) (mmio_va m);
        EvReleaseRegions (dev_of m);
        EvDisable (dev_of m)],
       spent 5 [bar0_len m; bar0_len m] [] m)
| irq_failed (e : Z) :
    e <> 0 ->
    probe_outcome m
      (e,
       [EvEnable (dev_of m) 0;
        EvRequestRegions (dev_of m) DRIVER_NAME 0;
        EvIomap (dev_of m) 0 (bar0_len m) (mmio_va m);
        EvIoremapWc (bar0_start m) (bar0_len m) (wc_va m);
        EvDmaAlloc (dev_of m) 4096 GFP_KERNEL (dma_cpu m) (dma_bus m);
        EvSetDrvdata (dev_of m) (mmio_va m);
        EvRequestIrq (irq (pdev m)) handler_fpga_pci_irq_handler IRQF_SHARED
          DRIVER_NAME (dev_of m) e;
        EvPrintk KERN_ERR "Failed to request IRQ %d\n"
          [int_of_unsigned (irq (pdev m))];
        EvDmaFree (dev_of m) 4096 (dma_cpu m) (dma_bus m);
        EvIounmap (wc_va m);
        EvPciIounmap (dev_of m) (mmio_va m);
        EvReleaseRegions (dev_of m);
        EvDisable (dev_of m)],
       with_pdev (set_driver_data (mmio_va m))
         (spent 6 [bar0_len m; bar0_len m; 4096] [4096] m))
| succeeded :
    0 < bar0_len m ->
    bar0_start m <> 0 ->
    regions_owner (pdev m) = None ->
    probe_outcome m
      (0,
       [EvEnable (dev_of m) 0;
        EvRequestRegions (dev_of m) DRIVER_NAME 0;
        EvIomap (dev_of m) 0 (bar0_len m) (mmio_va m);
        EvIoremapWc (bar0_start m) (bar0_len m) (wc_va m);
        EvDmaAlloc (dev_of m) 4096 GFP_KERNEL (dma_cpu m) (dma_bus m);
        EvSetDrvdata (dev_of m) (mmio_va m);
        EvRequestIrq (irq (pdev m)) handler_fpga_pci_irq_handler IRQF_SHARED
          DRIVER_NAME (dev_of m) 0;
        EvPrintk KERN_INFO "FPGA PCI device initialized successfully\n" []],
       with_pdev
         (fun d =>
            set_driver_data (mmio_va m)
              (set_regions_owner (Some DRIVER_NAME)
                 (set_enable_cnt (S (enable_cnt d)) d)))
         (set_irq_actions (irq_registration m :: irq_actions m)
            (set_dma_pool (pinned_buffer m :: dma_pool m)
               (set_iomaps (wc_mapping m :: mmio_mapping m :: iomaps m)
                  (spent 6 [bar0_len m; bar0_len m; 4096] [4096] m))))).

(** *** The runs of the pinned removal *)

Definition unmap (va : Z) (l : list mapping) : list mapping :=
  if va =? 0 then l else drop_mapping va l.

(** The host calls of a removal whose own [ioremap_wc] returned [w] and
    whose own [dma_alloc_coherent] returned [c] with bus address [b]. *)
Definition remove_calls (m : machine) (w c b : Z) : list event :=
  [EvIoremapWc (bar0_start m) (bar0_len m) w;
   EvDmaAlloc (dev_of m) 4096 GFP_KERNEL c b;
   EvFreeIrq (irq (pdev m)) (dev_of m);
   EvDmaFree (dev_of m) 4096 c b;
   EvIounmap w;
   EvPciIounmap (dev_of m) (driver_data (pdev m));
   EvReleaseRegions (dev_of m);
   EvDisable (dev_of m);
   EvPrintk KERN_INFO "FPGA PCI device removed\n" []].

Definition removed_state (m : machine) (vas buses : list Z) : machine :=
  with_pdev
    (fun d => set_regions_owner None (set_enable_cnt (Nat.pred (enable_cnt d)) d))
    (set_irq_actions (drop_action (irq (pdev m)) (dev_of m) (irq_actions m))
       (set_iomaps (unmap (driver_data (pdev m)) (iomaps m))
          (spent 2 vas buses m))).

(** The four ways a removal can go, by what its own two allocations did. *)
Inductive remove_outcome (m : machine) : unit * list event * machine -> Prop :=
| remap_failed_alloc_failed :
    remove_outcome m
      (tt, remove_calls m 0 0 (stack_junk m), removed_state m [] [])
| remap_failed_alloc_done :
    remove_outcome m
      (tt, remove_calls m 0 (Z.pos (next_va m)) (Z.pos (next_bus m)),
       removed_state m [4096] [4096])
| remap_done_alloc_failed :
    0 < bar0_len m ->
    remove_outcome m
      (tt, remove_calls m (Z.pos (next_va m)) 0 (stack_junk m),
       removed_state m [bar0_len m] [])
| remap_done_alloc_done :
    0 < bar0_len m ->
    remove_outcome m
      (tt,
       remove_calls m (Z.pos (next_va m))
         (Z.pos (next_va m + Z.to_pos (bar0_len m))) (Z.pos (next_bus m)),
       removed_state m [bar0_len m; 4096] [4096]).

(** [m] with nothing held: what is left of the host's state when the tables
    of live mappings, buffers and interrupt actions are put aside. *)
Definition strip (m : machine) : machine :=
  set_iomaps [] (set_dma_pool [] (set_irq_actions [] m)).

(** *** Handles taken and given back *)

(** The handle a host call hands out, when it does: the address of a
    mapping, or the CPU and bus addresses of a buffer. *)
Definition taken (e : event) : option (step * list Z) :=
  match e with
  | EvIomap _ _ _ r => if r =? 0 then None else Some (MapMmio, [r])
  | EvIoremapWc _ _ r => if r =? 0 then None else Some (MapWc, [r])
  | EvDmaAlloc _ _ _ r h => if r =? 0 then None else Some (AllocDma, [r; h])
  | _ => None
  end.

(** The handle a host call gives back. *)
Definition given (e : event) : option (step * list Z) :=
  match e with
  | EvPciIounmap _ va => Some (MapMmio, [va])
  | EvIounmap va => Some (MapWc, [va])
  | EvDmaFree _ _ cpu h => Some (AllocDma, [cpu; h])
  | _ => None
  end.

(** *** Binding the device again

    One cycle of the pinned driver on the device: probe, then removal; and
    [n] such cycles in a row. *)
Definition rebind (ent : pci_device_id) (m : machine) : machine :=
  final (fpga_pci_remove (final (fpga_pci_probe ent m))).

Fixpoint rebind_n (ent : pci_device_id) (n : nat) (m : machine) : machine :=
  match n with
  | O => m
  | S k => rebind_n ent k (rebind ent m)
  end.

(** The host refuses none of the coming calls, nobody owns the regions of
    the device, and its region 0 is assigned and not empty. *)
Definition willing (m : machine) : Prop :=
  Forall (fun e => e = 0) (faults m) /\
  regions_owner (pdev m) = None /\
  0 < resource_len (pdev m) 0 /\
  resource_start (pdev m) 0 <> 0.

(** *** The runs of the probe of [fpga_pci.c] *)

Inductive basic_probe_outcome (m : machine) : Z * list event * machine -> Prop :=
| basic_enable_failed (e : Z) :
    e <> 0 ->
    basic_probe_outcome m
      (e,
       [EvEnable (dev_of m) e;
        EvPrintk KERN_ERR "Failed to enable PCI device\n" []],
       spent 1 [] [] m)
| basic_reserve_failed (e : Z) :
    e <> 0 ->
    basic_probe_outcome m
      (e,
       [EvEnable (dev_of m) 0;
        EvRequestRegions (dev_of m) FpgaPci.DRIVER_NAME e;
        EvPrintk KERN_ERR "Failed to request PCI regions\n" [];
        EvDisable (dev_of m)],
       spent 2 [] [] m)
| basic_mmio_failed :
    basic_probe_outcome m
      (- ENOMEM,
       [EvEnable (dev_of m) 0;
        EvRequestRegions (dev_of m) FpgaPci.DRIVER_NAME 0;
        EvIomap (dev_of m) 0 (bar0_len m) 0;
        EvPrintk KERN_ERR "Failed to map PCI I/O memory\n" [];
        EvReleaseRegions (dev_of m);
        EvDisable (dev_of m)],
       spent 3 [] [] m)
| basic_succeeded :
    0 < bar0_len m ->
    bar0_start m <> 0 ->
    regions_owner (pdev m) = None ->
    basic_probe_outcome m
      (0,
       [EvEnable (dev_of m) 0;
        EvRequestRegions (dev_of m) FpgaPci.DRIVER_NAME 0;
        EvIomap (dev_of m) 0 (bar0_len m) (mmio_va m);
        EvSetDrvdata (dev_of m) (mmio_va m);
        EvPrintk KERN_INFO "FPGA PCI device initialized successfully\n" []],
       with_pdev
         (fun d =>
            set_driver_data (mmio_va m)
              (set_regions_owner (Some FpgaPci.DRIVER_NAME)
                 (set_enable_cnt (S (enable_cnt d)) d)))
         (set_iomaps (mmio_mapping m :: iomaps m)
            (spent 3 [bar0_len m] [] m))).

(** ** Registration of the drivers *)

Module Bus.

(** [struct pci_driver], the fields the two sources fill in. *)
Record pci_driver := {
  drv_name : string;
  drv_id_table : list pci_device_id;
  drv_probe : pci_device_id -> K Z;
  drv_remove : K unit
}.

(** The bus the device sits on: the host's state for the device, the names
    of the registered drivers, and the driver the device is bound to. *)
Record bus := {
  dev_state : machine;
  drivers : list string;
  bound : option string
}.

(** Modelled from the spec: the host primitive [pci_register_driver]
    ("host runtime discovers a device, checks the filter, invokes the
    pipeline"), absent from the repository: returns the host's error code and
    registers nothing, or registers the driver and returns 0; a device
    without a driver that the table matches is probed with the matching row,
    and is bound when the probe returns 0. *)
Definition pci_register_driver (drv : pci_driver) (b : bus)
    : Z * list event * bus :=
  let '(e, _, m1) := next_fault (dev_state b) in
  if negb (e =? 0)
  then (e, [], {| dev_state := m1; drivers := drivers b; bound := bound b |})
  else
    match bound b, pci_match_id (drv_id_table drv) (pdev m1) with
    | None, Some id =>
        let '(r, t, m2) := drv_probe drv id m1 in
        (0, t,
         {| dev_state := m2; drivers := drv_name drv :: drivers b;
            bound := if r =? 0 then Some (drv_name drv) else None |})
    | _, _ =>
        (0, [],
         {| dev_state := m1; drivers := drv_name drv :: drivers b;
            bound := bound b |})
    end.

(** Modelled from the spec: the host primitive [pci_unregister_driver] ("on
    removal, the host runtime hands back the device"), absent from the
    repository: the device is removed when it is bound to this driver, and
    the driver's name leaves the registry. *)
Definition pci_unregister_driver (drv : pci_driver) (b : bus)
    : unit * list event * bus :=
  let others :=
    filter (fun n => negb (String.eqb n (drv_name drv))) (drivers b) in
  match bound b with
  | Some n =>
      if String.eqb n (drv_name drv)
      then
        let '(_, t, m1) := drv_remove drv (dev_state b) in
        (tt, t, {| dev_state := m1; drivers := others; bound := None |})
      else (tt, [], {| dev_state := dev_state b; drivers := others;
                       bound := bound b |})
  | None =>
      (tt, [], {| dev_state := dev_state b; drivers := others; bound := None |})
  end.

End Bus.

Import Bus.

(** The registration part of [fpga_pci.c]. *)
Module FpgaPciModule.

Definition fpga_pci_driver : pci_driver :=
  {| drv_name := FpgaPci.DRIVER_NAME;
     drv_id_table := FpgaPci.fpga_pci_ids;
     drv_probe := FpgaPci.fpga_pci_probe;
     drv_remove := FpgaPci.fpga_pci_remove |}.

Definition fpga_pci_init (b : bus) : Z * list event * bus :=
  pci_register_driver fpga_pci_driver b.

Definition fpga_pci_exit (b : bus) : unit * list event * bus :=
  pci_unregister_driver fpga_pci_driver b.

End FpgaPciModule.

(** The registration part of [fpga_pci_pinned.c]. *)
Module FpgaPciPinnedModule.

Definition fpga_pci_driver : pci_driver :=
  {| drv_name := FpgaPciPinned.DRIVER_NAME;
     drv_id_table := FpgaPciPinned.fpga_pci_ids;
     drv_probe := FpgaPciPinned.fpga_pci_probe;
     drv_remove := FpgaPciPinned.fpga_pci_remove |}.

Definition fpga_pci_init (b : bus) : Z * list event * bus :=
  pci_register_driver fpga_pci_driver b.

Definition fpga_pci_exit (b : bus) : unit * list event * bus :=
  pci_unregister_driver fpga_pci_driver b.

End FpgaPciPinnedModule.

(** The bus with the device in state [m], no driver registered. *)
Definition cold (m : machine) : bus :=
  {| dev_state := m; drivers := []; bound := None |}.

(** *** The part the two probes have in common

    Steps 1 to 3 as both sources write them, with what follows a successful
    mapping left open. *)
Definition probe_front (rest : Z -> K Z) : K Z :=
  (err <- pci_enable_device ;;
  if negb (err =? 0) then
    pr_err "Failed to enable PCI device\n" [] ;;
    ret err
  else
  err <- pci_request_regions DRIVER_NAME ;;
  if negb (err =? 0) then
    pr_err "Failed to request PCI regions\n" [] ;;
    pci_disable_device ;;
    ret err
  else
  len <- pci_resource_len 0 ;;
  hw_addr <- pci_iomap 0 len ;;
  if hw_addr =? 0 then
    pr_err "Failed to map PCI I/O memory\n" [] ;;
    pci_release_regions ;;
    pci_disable_device ;;
    ret (- ENOMEM)
  else
  rest hw_addr)%kernel.

(** *** More sample machines *)

(** A device of another vendor, in the state of [boot]. *)
Definition stranger : machine :=
  {| pdev :=
       {| devfn := 16; vendor := 0x8086; device := 0x100e;
          subsystem_vendor := 0; subsystem_device := 0; dev_class := 0;
          irq := 10;
          resource_start := fun bar => if bar =? 0 then 0xfd000000 else 0;
          resource_len := fun bar => if bar =? 0 then 0x20000 else 0;
          enable_cnt := 0; regions_owner := None; driver_data := 0 |};
     iomaps := []; dma_pool := []; irq_actions := [];
     next_va := 0x1000; next_bus := 0x2000; faults := []; stack_junk := 0 |}.

(** *** What the host grants a probe

    Whether the host lets the [k]-th coming fallible call through. *)
Definition granted (k : nat) (m : machine) : bool := nth k (faults m) 0 =? 0.

(** How many of the six steps of a probe that starts in [m] the host lets
    succeed, in order: each step needs its call let through; the reservation
    needs the regions without an owner; the MMIO mapping needs region 0
    assigned and not empty. *)
Definition grants (m : machine) : nat :=
  if negb (granted 0 m) then 0
  else if negb (granted 1 m)
          || match regions_owner (pdev m) with Some _ => true | None => false end
       then 1
  else if negb (granted 2 m) || (resource_len (pdev m) 0 <=? 0)
          || (resource_start (pdev m) 0 =? 0)
       then 2
  else if negb (granted 3 m) then 3
  else if negb (granted 4 m) then 4
  else if negb (granted 5 m) then 5
  else 6.

(** The number of acquisition calls of a run that yielded their resource. *)
Definition yields (run : Z * list event * machine) : nat :=
  List.length (filter snd (pick acquires (calls run))).

(** The arguments and results of the DMA and interrupt calls of a run. *)
Definition dma_alloc_call (e : event) : option (Z * Z * gfp_t * Z * Z) :=
  match e with
  | EvDmaAlloc d s g r h => Some (d, s, g, r, h)
  | _ => None
  end.

Definition dma_free_call (e : event) : option (Z * Z * Z * Z) :=
  match e with
  | EvDmaFree d s c h => Some (d, s, c, h)
  | _ => None
  end.

Definition irq_request_call (e : event)
    : option (Z * irq_handler_t * Z * string * Z * Z) :=
  match e with
  | EvRequestIrq l h f nm d r => Some (l, h, f, nm, d, r)
  | _ => None
  end.

(** ** Symbolic execution of a run *)

Lemma pos_add_eqb_l (p q : positive) : (p + q =? p)%positive = false.
Proof. apply Pos.eqb_neq. lia. Qed.

Lemma pos_add_eqb_r (p q : positive) : (p =? p + q)%positive = false.
Proof. apply Pos.eqb_neq. lia. Qed.

Ltac open_machine m :=
  let d := fresh "d" in
  destruct m as [d ? ? ? ? ? ? ?]; destruct d.

Ltac unfold_host :=
  unfold result, calls, final, fpga_pci_probe, fpga_pci_remove,
    fpga_pci_irq_handler, pci_enable_device, pci_disable_device,
    pci_request_regions, pci_release_regions, pci_resource_start,
    pci_resource_len, pci_iomap, ioremap_wc, iounmap, pci_iounmap,
    dma_alloc_coherent, dma_free_coherent, pci_set_drvdata, pci_get_drvdata,
    request_irq, free_irq, pr_err, pr_info, next_fault, fresh_va, fresh_bus,
    bind, ret, gets, modify, emit in *.

Ltac tidy :=
  repeat (progress (
    cbn in *;
    cbv [set_enable_cnt set_regions_owner set_driver_data with_pdev
         set_iomaps set_dma_pool set_irq_actions set_next_va set_next_bus
         set_faults same_buf holdings spent dev_of bar0_start bar0_len
         mmio_va wc_va dma_cpu dma_bus mmio_mapping wc_mapping pinned_buffer
         irq_registration remove_calls removed_state unmap strip] in *;
    rewrite ?Z.ltb_irrefl, ?andb_false_r, ?Pos.eqb_refl, ?Z.eqb_refl,
      ?pos_add_eqb_l, ?pos_add_eqb_r in *)).

Ltac fork :=
  match goal with
  | |- context [match ?fs with [] => _ | _ :: _ => _ end] => is_var fs; destruct fs
  | |- context [?z =? 0] => is_var z; destruct z
  | |- context [match ?o with Some _ => _ | None => _ end] => is_var o; destruct o
  | |- context [?a <=? 0] => destruct (a <=? 0) eqn:?
  | |- context [?a =? 0] => destruct (a =? 0) eqn:?
  end; tidy.

Ltac run := unfold_host; tidy; repeat fork.

(** Every run of the pinned probe, from every host state, is one of the
    seven outcomes. *)
Lemma probe_outcome_total (ent : pci_device_id) (m : machine) :
  probe_outcome m (fpga_pci_probe ent m).
Proof.
  open_machine m.
  match goal with
  | |- probe_outcome ?M _ => remember M as m0 eqn:Em
  end.
  remember (fpga_pci_probe ent m0) as run eqn:Er.
  rewrite Em in Er. revert Er.
  run; intros ->; subst m0;
    repeat match goal with
           | H : (_ <=? 0) = false |- _ => apply Z.leb_gt in H
           | H : (_ =? 0) = false |- _ => apply Z.eqb_neq in H
           end.
  all: try (apply enable_failed; discriminate).
  all: try (apply reserve_failed; discriminate).
  all: try apply mmio_failed.
  all: try apply wc_failed.
  all: try apply dma_failed.
  all: try (apply irq_failed; discriminate).
  all: try (apply succeeded; cbn; [lia | assumption | reflexivity]).
Qed.

(** Every run of the pinned removal is one of the four outcomes. *)
Lemma remove_outcome_total (m : machine) :
  remove_outcome m (fpga_pci_remove m).
Proof.
  open_machine m.
  match goal with
  | |- remove_outcome ?M _ => remember M as m0 eqn:Em
  end.
  remember (fpga_pci_remove m0) as run eqn:Er.
  rewrite Em in Er. revert Er.
  run; intros ->; subst m0;
    repeat match goal with
           | H : (_ <=? 0) = false |- _ => apply Z.leb_gt in H
           end.
  all: try apply remap_failed_alloc_failed.
  all: try apply remap_failed_alloc_done.
  all: try (apply remap_done_alloc_failed; assumption).
  all: try (apply remap_done_alloc_done; assumption).
Qed.

(** The calls of a removal do not depend on what the host holds. *)
Lemma remove_calls_strip (m : machine) :
  calls (fpga_pci_remove m) = calls (fpga_pci_remove (strip m)).
Proof.
  open_machine m. run; reflexivity.
Qed.

Lemma handler_run (line dev_id : Z) (m : machine) :
  fpga_pci_irq_handler line dev_id m =
  (IRQ_HANDLED, [EvPrintk KERN_INFO "FPGA PCI interrupt handled\n" []], m).
Proof. reflexivity. Qed.

(** ** The acquisition pipeline *)

Ltac probe_cases ent m :=
  let H := fresh "Hrun" in
  pose proof (probe_outcome_total ent m) as H;
  destruct (fpga_pci_probe ent m) as [[? ?] ?];
  inversion H; subst; clear H;
  repeat match goal with
         | H : ?e <> 0 |- _ =>
             is_var e;
             lazymatch goal with
             | _ : (e =? 0) = false |- _ => fail
             | _ => assert ((e =? 0) = false) by (apply Z.eqb_neq; exact H)
             end
         end;
  cbn [result calls final fst snd pick acquires releases reported published];
  repeat match goal with
         | E : (_ =? 0) = false |- _ => rewrite E
         end.

(** The number of steps of a probe that yield is the number the host
    grants. *)
Lemma probe_yields_granted (ent : pci_device_id) (m : machine) :
  yields (fpga_pci_probe ent m) = grants m.
Proof.
  open_machine m. unfold yields, grants, granted.
  cbn [faults pdev regions_owner resource_len resource_start].
  destruct (fpga_pci_probe ent _) as [[r t] m1] eqn:E. revert E.
  run; intros [= <- <- <-]; cbn; try reflexivity; congruence.
Qed.

Ltac granted_cases ent m :=
  let Hy := fresh "Hy" in
  let H := fresh "Hrun" in
  let g := fresh "g" in
  let run := fresh "run" in
  pose proof (probe_yields_granted ent m) as Hy; unfold yields in Hy;
  pose proof (probe_outcome_total ent m) as H;
  remember (grants m) as g eqn:Eg in *; clear Eg;
  remember (fpga_pci_probe ent m) as run eqn:Er in *; clear Er;
  destruct run as [[? ?] ?];
  revert Hy; inversion H; subst; clear H; intros Hy;
  repeat match goal with
         | H : ?e <> 0 |- _ =>
             is_var e;
             lazymatch goal with
             | _ : (e =? 0) = false |- _ => fail
             | _ => assert ((e =? 0) = false) by (apply Z.eqb_neq; exact H)
             end
         end;
  cbn [calls fst snd pick acquires] in Hy;
  repeat match goal with
         | E : (_ =? 0) = false |- _ => rewrite E in Hy
         end;
  cbn [filter List.length snd negb Z.eqb mmio_va wc_va dma_cpu] in Hy;
  subst g;
  cbn [result calls final fst snd].

Ltac settle :=
  cbv iota;
  cbn [pick acquires releases reported published taken given];
  repeat match goal with
         | E : (_ =? 0) = false |- _ => rewrite E
         end.

(** C4: a probe runs the six acquisition steps in the one order enable,
    reserve, map MMIO, map write-combined, allocate DMA, register interrupt,
    as far as the host lets it: when the host grants [n] of them, the
    acquisition calls of the probe are exactly the first [n] steps, each
    having yielded its resource, followed by the failing step when [n < 6]
    and by nothing otherwise; so every step is attempted once all earlier
    ones yielded, and none after a failed one.  The probe reports success
    exactly when all six yielded, and the host then holds six things more for
    the device than before (as many as before when the probe fails). *)
Theorem probe_steps_in_order (ent : pci_device_id) (m : machine) (n : nat) :
  grants m = n ->
  (n <= 6)%nat /\
  pick acquires (calls (fpga_pci_probe ent m)) = outcome_shape n /\
  (result (fpga_pci_probe ent m) = 0 <-> n = 6%nat) /\
  if result (fpga_pci_probe ent m) =? 0
  then live_count (final (fpga_pci_probe ent m)) = (6 + live_count m)%nat
  else live_count (final (fpga_pci_probe ent m)) = live_count m.
Proof.
  granted_cases ent m; intros <-; settle.
  all: split; [lia | split; [reflexivity | split; [split; intros; easy | ]]].
  all: try reflexivity.
  change (0 =? 0) with true. cbv iota.
  unfold live_count; cbn.
  match goal with H : regions_owner (pdev m) = None |- _ => rewrite H end.
  lia.
Qed.

Lemma probe_steps_in_order_witness :
  (6 <= 6)%nat /\
  pick acquires (calls (fpga_pci_probe board_id (boot []))) = outcome_shape 6 /\
  (result (fpga_pci_probe board_id (boot [])) = 0 <-> 6%nat = 6%nat) /\
  if result (fpga_pci_probe board_id (boot [])) =? 0
  then live_count (final (fpga_pci_probe board_id (boot []))) =
         (6 + live_count (boot []))%nat
  else live_count (final (fpga_pci_probe board_id (boot []))) =
         live_count (boot []).
Proof.
  apply (probe_steps_in_order board_id (boot []) 6).
  reflexivity.
Defined.

Lemma probe_ok_when_agreed (ent : pci_device_id) (m : machine) :
  Forall (fun e => e = 0) (firstn 6 (faults m)) ->
  regions_owner (pdev m) = None ->
  0 < resource_len (pdev m) 0 ->
  resource_start (pdev m) 0 <> 0 ->
  result (fpga_pci_probe ent m) = 0.
Proof.
  open_machine m. cbn [faults pdev regions_owner resource_len resource_start].
  intros Hfs -> Hlen Hstart.
  apply Z.leb_gt in Hlen. apply Z.eqb_neq in Hstart.
  run.
  all: try reflexivity.
  all: try congruence.
  all: exfalso;
    repeat match goal with
           | H : Forall _ (_ :: _) |- _ =>
               apply Forall_cons_iff in H; destruct H as [? H]
           end;
    discriminate.
Qed.

(** Scenario A of the specification: all six steps, then the removal gives
    back in the order interrupt, DMA buffer, write-combined mapping, MMIO
    mapping, regions, enable. *)
Example scenario_a :
  pick acquires (calls (fpga_pci_probe board_id (boot []))) =
    [(Enable, true); (Reserve, true); (MapMmio, true); (MapWc, true);
     (AllocDma, true); (RegisterIrq, true)] /\
  pick releases
    (calls (fpga_pci_remove (final (fpga_pci_probe board_id (boot []))))) =
    [RegisterIrq; AllocDma; MapWc; MapMmio; Reserve; Enable].
Proof. vm_compute. split; reflexivity. Qed.

(** Scenario B of the specification: the write-combined mapping fails; the
    probe gives back MMIO mapping, regions, enable, and nothing else. *)
Example scenario_b :
  result (fpga_pci_probe board_id (boot [0; 0; 0; 1])) = - ENOMEM /\
  pick acquires (calls (fpga_pci_probe board_id (boot [0; 0; 0; 1]))) =
    [(Enable, true); (Reserve, true); (MapMmio, true); (MapWc, false)] /\
  pick releases (calls (fpga_pci_probe board_id (boot [0; 0; 0; 1]))) =
    [MapMmio; Reserve; Enable].
Proof. vm_compute. repeat split. Qed.

(** ** Unwinding a failed probe *)

Ltac split_calls k :=
  match goal with
  | |- exists before after, ?t = before ++ after /\ _ =>
      exists (firstn k t), (skipn k t); repeat split; reflexivity
  end.

(** C3: when a probe fails, it failed at one step, the first one the host
    does not grant: the steps before it all yielded their resource, the
    failing step is the last one attempted, the resources of the earlier
    steps are given back in the reverse of the order they were taken, each by
    the handle its acquisition returned (the address of the mapping, the CPU
    and bus address of the buffer), all of that after the last acquisition
    and before the probe returns; the value returned is the status code the
    host reported for the failing call (for the three steps whose host call
    reports its failure as a null pointer: the code -ENOMEM the step returns
    for it); and what the host holds for the device is exactly what it held
    before the probe, so nothing is held when nothing was. *)
Theorem probe_failure_unwinds (ent : pci_device_id) (m : machine) :
  result (fpga_pci_probe ent m) <> 0 ->
  exists n : nat,
    (n < 6)%nat /\
    n = grants m /\
    pick acquires (calls (fpga_pci_probe ent m)) = outcome_shape n /\
    pick releases (calls (fpga_pci_probe ent m)) = rev (firstn n pipeline) /\
    pick given (calls (fpga_pci_probe ent m)) =
      rev (pick taken (calls (fpga_pci_probe ent m))) /\
    (exists before after,
        calls (fpga_pci_probe ent m) = before ++ after /\
        pick releases before = [] /\
        pick acquires after = []) /\
    match nth_error pipeline n with
    | Some (MapMmio | MapWc | AllocDma) =>
        result (fpga_pci_probe ent m) = - ENOMEM
    | _ =>
        last (pick reported (calls (fpga_pci_probe ent m))) 0 =
        result (fpga_pci_probe ent m)
    end /\
    holdings (final (fpga_pci_probe ent m)) = holdings m /\
    (live_count m = 0%nat ->
     live_count (final (fpga_pci_probe ent m)) = 0%nat).
Proof.
  granted_cases ent m; settle; intros Hfail;
    [ exists 0%nat | exists 1%nat | exists 2%nat | exists 3%nat
    | exists 4%nat | exists 5%nat | contradiction Hfail; reflexivity ].
  all: split; [lia | ].
  all: split; [reflexivity | ].
  all: split; [reflexivity | ].
  all: split; [reflexivity | ].
  all: split; [reflexivity | ].
  all: split;
    [ first [ split_calls 2%nat | split_calls 3%nat | split_calls 4%nat
            | split_calls 5%nat | split_calls 6%nat | split_calls 8%nat ] | ].
  all: split; [reflexivity | ].
  all: split; [reflexivity | intros Hnone; exact Hnone].
Qed.

Lemma probe_failure_unwinds_witness :
  exists n : nat,
    (n < 6)%nat /\
    n = grants (boot [0; 0; 0; 0; 0; -16]) /\
    pick acquires (calls (fpga_pci_probe board_id (boot [0; 0; 0; 0; 0; -16]))) =
      outcome_shape n /\
    pick releases (calls (fpga_pci_probe board_id (boot [0; 0; 0; 0; 0; -16]))) =
      rev (firstn n pipeline) /\
    pick given (calls (fpga_pci_probe board_id (boot [0; 0; 0; 0; 0; -16]))) =
      rev (pick taken (calls (fpga_pci_probe board_id (boot [0; 0; 0; 0; 0; -16])))) /\
    (exists before after,
        calls (fpga_pci_probe board_id (boot [0; 0; 0; 0; 0; -16])) =
          before ++ after /\
        pick releases before = [] /\
        pick acquires after = []) /\
    match nth_error pipeline n with
    | Some (MapMmio | MapWc | AllocDma) =>
        result (fpga_pci_probe board_id (boot [0; 0; 0; 0; 0; -16])) = - ENOMEM
    | _ =>
        last (pick reported
                (calls (fpga_pci_probe board_id (boot [0; 0; 0; 0; 0; -16])))) 0 =
        result (fpga_pci_probe board_id (boot [0; 0; 0; 0; 0; -16]))
    end /\
    holdings (final (fpga_pci_probe board_id (boot [0; 0; 0; 0; 0; -16]))) =
      holdings (boot [0; 0; 0; 0; 0; -16]) /\
    (live_count (boot [0; 0; 0; 0; 0; -16]) = 0%nat ->
     live_count (final (fpga_pci_probe board_id (boot [0; 0; 0; 0; 0; -16]))) =
       0%nat).
Proof.
  apply (probe_failure_unwinds board_id (boot [0; 0; 0; 0; 0; -16])).
  vm_compute. discriminate.
Defined.

(** ** The two aliases of region 0 *)

Lemma wc_va_above (m : machine) :
  0 < bar0_len m -> wc_va m = mmio_va m + bar0_len m.
Proof.
  intros Hlen. unfold wc_va, mmio_va.
  rewrite Pos2Z.inj_add, Z2Pos.id by exact Hlen. reflexivity.
Qed.

Lemma translate_through_mmio (m : machine) (l : list mapping) (off : Z) :
  0 <= off < bar0_len m ->
  translate (wc_mapping m :: mmio_mapping m :: l) (mmio_va m + off) =
  Some (bar0_start m + off).
Proof.
  intros Hoff. cbn [translate wc_mapping mmio_mapping m_va m_pa m_len].
  rewrite wc_va_above by lia.
  replace (mmio_va m + bar0_len m <=? mmio_va m + off) with false
    by (symmetry; apply Z.leb_gt; lia).
  cbn [andb].
  replace (mmio_va m <=? mmio_va m + off) with true
    by (symmetry; apply Z.leb_le; lia).
  replace (mmio_va m + off <? mmio_va m + bar0_len m) with true
    by (symmetry; apply Z.ltb_lt; lia).
  cbn [andb]. f_equal. lia.
Qed.

Lemma translate_through_wc (m : machine) (l : list mapping) (off : Z) :
  0 <= off < bar0_len m ->
  translate (wc_mapping m :: mmio_mapping m :: l) (wc_va m + off) =
  Some (bar0_start m + off).
Proof.
  intros Hoff. cbn [translate wc_mapping mmio_mapping m_va m_pa m_len].
  replace (wc_va m <=? wc_va m + off) with true
    by (symmetry; apply Z.leb_le; lia).
  replace (wc_va m + off <? wc_va m + bar0_len m) with true
    by (symmetry; apply Z.ltb_lt; lia).
  cbn [andb]. f_equal. lia.
Qed.

(** C5: after a successful probe the host holds two mappings made by the
    probe: the MMIO mapping and the write-combined mapping, at different
    virtual addresses (disjoint virtual ranges), both over region 0 of the
    device: same base physical address, same length.  Through the host's
    address translation a byte written at an offset through either mapping
    is the byte read at that offset through the other (memory taken as a
    flat store). *)
Theorem probe_maps_two_aliases (ent : pci_device_id) (m : machine) :
  result (fpga_pci_probe ent m) = 0 ->
  exists hw wc : Z,
    In (EvIomap (devfn (pdev m)) 0 (resource_len (pdev m) 0) hw)
       (calls (fpga_pci_probe ent m)) /\
    In (EvIoremapWc (resource_start (pdev m) 0) (resource_len (pdev m) 0) wc)
       (calls (fpga_pci_probe ent m)) /\
    iomaps (final (fpga_pci_probe ent m)) =
      {| m_va := wc; m_pa := resource_start (pdev m) 0;
         m_len := resource_len (pdev m) 0; m_attr := WriteCombined |}
      :: {| m_va := hw; m_pa := resource_start (pdev m) 0;
            m_len := resource_len (pdev m) 0; m_attr := Uncached |}
      :: iomaps m /\
    hw <> 0 /\ wc <> 0 /\ hw + resource_len (pdev m) 0 <= wc /\
    0 < resource_len (pdev m) 0 /\
    forall (mem : phys_mem) (off v : Z),
      0 <= off < resource_len (pdev m) 0 ->
      (exists mem',
          iowrite8 (final (fpga_pci_probe ent m)) mem (hw + off) v = Some mem' /\
          ioread8 (final (fpga_pci_probe ent m)) mem' (wc + off) = Some (v mod 256)) /\
      (exists mem',
          iowrite8 (final (fpga_pci_probe ent m)) mem (wc + off) v = Some mem' /\
          ioread8 (final (fpga_pci_probe ent m)) mem' (hw + off) = Some (v mod 256)).
Proof.
  probe_cases ent m; intros Hok; try discriminate Hok;
    try (exfalso; match goal with H : _ <> 0 |- _ => apply H; exact Hok end).
  exists (mmio_va m), (wc_va m).
  repeat match goal with |- _ /\ _ => split end.
  - cbn. auto.
  - cbn. auto 6.
  - reflexivity.
  - discriminate.
  - discriminate.
  - rewrite wc_va_above by assumption. apply Z.le_refl.
  - assumption.
  - intros mem off v Hoff.
    unfold iowrite8, ioread8.
    change (iomaps _) with (wc_mapping m :: mmio_mapping m :: iomaps m).
    rewrite translate_through_mmio, translate_through_wc by exact Hoff.
    split; eexists; (split; [reflexivity | ]); cbv beta;
      rewrite Z.eqb_refl; reflexivity.
Qed.

Lemma probe_maps_two_aliases_witness :
  exists hw wc : Z,
    In (EvIomap (devfn (pdev (boot []))) 0 (resource_len (pdev (boot [])) 0) hw)
       (calls (fpga_pci_probe board_id (boot []))) /\
    In (EvIoremapWc (resource_start (pdev (boot [])) 0)
          (resource_len (pdev (boot [])) 0) wc)
       (calls (fpga_pci_probe board_id (boot []))) /\
    iomaps (final (fpga_pci_probe board_id (boot []))) =
      {| m_va := wc; m_pa := resource_start (pdev (boot [])) 0;
         m_len := resource_len (pdev (boot [])) 0; m_attr := WriteCombined |}
      :: {| m_va := hw; m_pa := resource_start (pdev (boot [])) 0;
            m_len := resource_len (pdev (boot [])) 0; m_attr := Uncached |}
      :: iomaps (boot []) /\
    hw <> 0 /\ wc <> 0 /\ hw + resource_len (pdev (boot [])) 0 <= wc /\
    0 < resource_len (pdev (boot [])) 0 /\
    forall (mem : phys_mem) (off v : Z),
      0 <= off < resource_len (pdev (boot [])) 0 ->
      (exists mem',
          iowrite8 (final (fpga_pci_probe board_id (boot []))) mem (hw + off) v =
            Some mem' /\
          ioread8 (final (fpga_pci_probe board_id (boot []))) mem' (wc + off) =
            Some (v mod 256)) /\
      (exists mem',
          iowrite8 (final (fpga_pci_probe board_id (boot []))) mem (wc + off) v =
            Some mem' /\
          ioread8 (final (fpga_pci_probe board_id (boot []))) mem' (hw + off) =
            Some (v mod 256)).
Proof.
  apply (probe_maps_two_aliases board_id (boot [])).
  vm_compute. reflexivity.
Defined.

(** ** The pinned buffer and the interrupt line *)

(** C7: every DMA allocation a probe asks for is an allocation of 4096
    bytes for the probed device.  A probe makes that call exactly when the
    host granted the four steps before it, and never otherwise.  When the
    host grants it, the call returns a non-null CPU address together with a
    bus address; a probe that then succeeds leaves the host holding that
    buffer (device, 4096 bytes, CPU address, bus address) on top of what it
    held; a probe that then fails at the interrupt frees the buffer by that
    same pair.  A probe that fails leaves the host's buffers as they were. *)
Theorem probe_dma_buffer_fixed_size (ent : pci_device_id) (m : machine) (n : nat) :
  grants m = n ->
  Forall (fun e =>
            match e with
            | EvDmaAlloc dev size gfp _ _ =>
                dev = devfn (pdev m) /\ size = 4096 /\ gfp = GFP_KERNEL
            | _ => True
            end)
         (calls (fpga_pci_probe ent m)) /\
  (if result (fpga_pci_probe ent m) =? 0
   then
     exists cpu bus : Z,
       cpu <> 0 /\
       pick (fun e => match e with
                      | EvDmaAlloc dev size _ c b => Some (dev, size, c, b)
                      | _ => None
                      end)
            (calls (fpga_pci_probe ent m)) =
         [(devfn (pdev m), 4096, cpu, bus)] /\
       dma_pool (final (fpga_pci_probe ent m)) =
         {| d_dev := devfn (pdev m); d_size := 4096; d_cpu := cpu; d_bus := bus |}
         :: dma_pool m
   else dma_pool (final (fpga_pci_probe ent m)) = dma_pool m) /\
  match n with
  | 0%nat | 1%nat | 2%nat | 3%nat =>
      pick dma_alloc_call (calls (fpga_pci_probe ent m)) = [] /\
      pick dma_free_call (calls (fpga_pci_probe ent m)) = []
  | 4%nat =>
      pick dma_alloc_call (calls (fpga_pci_probe ent m)) =
        [(devfn (pdev m), 4096, GFP_KERNEL, 0, stack_junk m)] /\
      pick dma_free_call (calls (fpga_pci_probe ent m)) = []
  | 5%nat =>
      exists cpu bus : Z,
        cpu <> 0 /\
        pick dma_alloc_call (calls (fpga_pci_probe ent m)) =
          [(devfn (pdev m), 4096, GFP_KERNEL, cpu, bus)] /\
        pick dma_free_call (calls (fpga_pci_probe ent m)) =
          [(devfn (pdev m), 4096, cpu, bus)]
  | _ =>
      exists cpu bus : Z,
        cpu <> 0 /\
        pick dma_alloc_call (calls (fpga_pci_probe ent m)) =
          [(devfn (pdev m), 4096, GFP_KERNEL, cpu, bus)] /\
        pick dma_free_call (calls (fpga_pci_probe ent m)) = [] /\
        result (fpga_pci_probe ent m) = 0 /\
        In {| d_dev := devfn (pdev m); d_size := 4096; d_cpu := cpu; d_bus := bus |}
           (dma_pool (final (fpga_pci_probe ent m)))
  end.
Proof.
  granted_cases ent m; intros <-; settle.
  all: split; [repeat constructor | split].
  all: try reflexivity.
  all: try (split; reflexivity).
  - exists (dma_cpu m), (dma_bus m).
    split; [discriminate | split; reflexivity].
  - exists (dma_cpu m), (dma_bus m).
    split; [discriminate | split; reflexivity].
  - exists (dma_cpu m), (dma_bus m).
    repeat split; try discriminate. cbn. auto.
Qed.

Lemma probe_dma_buffer_fixed_size_witness :
  Forall (fun e =>
            match e with
            | EvDmaAlloc dev size gfp _ _ =>
                dev = devfn (pdev (boot [])) /\ size = 4096 /\ gfp = GFP_KERNEL
            | _ => True
            end)
         (calls (fpga_pci_probe board_id (boot []))) /\
  (if result (fpga_pci_probe board_id (boot [])) =? 0
   then
     exists cpu bus : Z,
       cpu <> 0 /\
       pick (fun e => match e with
                      | EvDmaAlloc dev size _ c b => Some (dev, size, c, b)
                      | _ => None
                      end)
            (calls (fpga_pci_probe board_id (boot []))) =
         [(devfn (pdev (boot [])), 4096, cpu, bus)] /\
       dma_pool (final (fpga_pci_probe board_id (boot []))) =
         {| d_dev := devfn (pdev (boot [])); d_size := 4096; d_cpu := cpu;
            d_bus := bus |}
         :: dma_pool (boot [])
   else dma_pool (final (fpga_pci_probe board_id (boot []))) = dma_pool (boot [])) /\
  exists cpu bus : Z,
    cpu <> 0 /\
    pick dma_alloc_call (calls (fpga_pci_probe board_id (boot []))) =
      [(devfn (pdev (boot [])), 4096, GFP_KERNEL, cpu, bus)] /\
    pick dma_free_call (calls (fpga_pci_probe board_id (boot []))) = [] /\
    result (fpga_pci_probe board_id (boot [])) = 0 /\
    In {| d_dev := devfn (pdev (boot [])); d_size := 4096; d_cpu := cpu;
          d_bus := bus |}
       (dma_pool (final (fpga_pci_probe board_id (boot [])))).
Proof.
  apply (probe_dma_buffer_fixed_size board_id (boot []) 6).
  reflexivity.
Defined.

(** C8: every interrupt registration a probe asks for is on the line
    assigned to the device ([pdev->irq]), for the driver's handler, in
    shared-line mode ([IRQF_SHARED]), under the driver's name, with the device
    as cookie.  A probe makes that call exactly when the host granted the
    five steps before it, and never otherwise; when the host grants it the
    probe succeeds and leaves that one registration with the host; when the
    host refuses it the probe returns the host's code and leaves no
    registration of its own.  The handler gives the host's dispatch a
    handled / not-handled verdict. *)
Theorem probe_registers_shared_handler (ent : pci_device_id) (m : machine) (n : nat) :
  grants m = n ->
  Forall (fun e =>
            match e with
            | EvRequestIrq line h flags name dev_id _ =>
                line = irq (pdev m) /\ h = handler_fpga_pci_irq_handler /\
                flags = IRQF_SHARED /\ name = DRIVER_NAME /\
                dev_id = devfn (pdev m)
            | _ => True
            end)
         (calls (fpga_pci_probe ent m)) /\
  (if result (fpga_pci_probe ent m) =? 0
   then
     irq_actions (final (fpga_pci_probe ent m)) =
       {| a_irq := irq (pdev m); a_handler := handler_fpga_pci_irq_handler;
          a_flags := IRQF_SHARED; a_name := DRIVER_NAME;
          a_dev_id := devfn (pdev m) |} :: irq_actions m
   else irq_actions (final (fpga_pci_probe ent m)) = irq_actions m) /\
  (forall (line dev_id : Z) (m0 : machine),
      result (fpga_pci_irq_handler line dev_id m0) = IRQ_HANDLED \/
      result (fpga_pci_irq_handler line dev_id m0) = IRQ_NONE) /\
  match n with
  | 0%nat | 1%nat | 2%nat | 3%nat | 4%nat =>
      pick irq_request_call (calls (fpga_pci_probe ent m)) = []
  | 5%nat =>
      exists e : Z,
        e <> 0 /\
        pick irq_request_call (calls (fpga_pci_probe ent m)) =
          [(irq (pdev m), handler_fpga_pci_irq_handler, IRQF_SHARED,
            DRIVER_NAME, devfn (pdev m), e)] /\
        result (fpga_pci_probe ent m) = e
  | _ =>
      pick irq_request_call (calls (fpga_pci_probe ent m)) =
        [(irq (pdev m), handler_fpga_pci_irq_handler, IRQF_SHARED,
          DRIVER_NAME, devfn (pdev m), 0)] /\
      result (fpga_pci_probe ent m) = 0
  end.
Proof.
  granted_cases ent m; intros <-; settle.
  all: split; [repeat constructor | split; [ | split]].
  all: try (intros; left; reflexivity).
  all: try reflexivity.
  - match goal with H : ?e <> 0 |- _ => exists e end.
    repeat split; assumption.
  - split; reflexivity.
Qed.

Lemma probe_registers_shared_handler_witness :
  Forall (fun e =>
            match e with
            | EvRequestIrq line h flags name dev_id _ =>
                line = irq (pdev (boot [])) /\ h = handler_fpga_pci_irq_handler /\
                flags = IRQF_SHARED /\ name = DRIVER_NAME /\
                dev_id = devfn (pdev (boot []))
            | _ => True
            end)
         (calls (fpga_pci_probe board_id (boot []))) /\
  (if result (fpga_pci_probe board_id (boot [])) =? 0
   then
     irq_actions (final (fpga_pci_probe board_id (boot []))) =
       {| a_irq := irq (pdev (boot [])); a_handler := handler_fpga_pci_irq_handler;
          a_flags := IRQF_SHARED; a_name := DRIVER_NAME;
          a_dev_id := devfn (pdev (boot [])) |} :: irq_actions (boot [])
   else irq_actions (final (fpga_pci_probe board_id (boot []))) =
          irq_actions (boot [])) /\
  (forall (line dev_id : Z) (m0 : machine),
      result (fpga_pci_irq_handler line dev_id m0) = IRQ_HANDLED \/
      result (fpga_pci_irq_handler line dev_id m0) = IRQ_NONE) /\
  pick irq_request_call (calls (fpga_pci_probe board_id (boot []))) =
    [(irq (pdev (boot [])), handler_fpga_pci_irq_handler, IRQF_SHARED,
      DRIVER_NAME, devfn (pdev (boot [])), 0)] /\
  result (fpga_pci_probe board_id (boot [])) = 0.
Proof.
  apply (probe_registers_shared_handler board_id (boot []) 6).
  reflexivity.
Defined.

(** C10: whatever the line and the cookie, the handler returns
    [IRQ_HANDLED]; it leaves the host's state (device record, mappings,
    buffers, registrations, address allocators) as it found it, and its only
    call into the host is one [pr_info]. *)
Theorem irq_handler_always_handled (line dev_id : Z) (m : machine) :
  result (fpga_pci_irq_handler line dev_id m) = IRQ_HANDLED /\
  final (fpga_pci_irq_handler line dev_id m) = m /\
  calls (fpga_pci_irq_handler line dev_id m) =
    [EvPrintk KERN_INFO "FPGA PCI interrupt handled\n" []].
Proof.
  rewrite handler_run. repeat split.
Qed.

(** ** The matching table *)

(** C6: for every device, whatever its vendor and device ids (so for every
    pair of 16-bit values), the table of either driver matches it exactly
    when the pair is (0x1234, 0x5678); [matches] is a total function to
    [bool] of the table and the device only. *)
Theorem fpga_pci_ids_match_iff (d : pci_dev) :
  (matches FpgaPciPinned.fpga_pci_ids d = true <->
   (vendor d, device d) = (0x1234, 0x5678)) /\
  (matches FpgaPci.fpga_pci_ids d = true <->
   (vendor d, device d) = (0x1234, 0x5678)).
Proof.
  assert (H : matches [PCI_DEVICE 0x1234 0x5678; pci_id_zero] d = true <->
              (vendor d, device d) = (0x1234, 0x5678)).
  { unfold matches, pci_match_id, pci_match_one_device.
    cbn [PCI_DEVICE pci_id_zero id_vendor id_device id_subvendor id_subdevice
         id_class id_class_mask].
    rewrite Z.land_0_r.
    change (0x1234 =? 0) with false. change (0x1234 =? PCI_ANY_ID) with false.
    change (0x5678 =? PCI_ANY_ID) with false.
    change (PCI_ANY_ID =? PCI_ANY_ID) with true.
    change (PCI_ANY_ID =? 0) with false. change (0 =? 0) with true.
    cbn [andb orb].
    destruct (Z.eqb_spec 0x1234 (vendor d)) as [Hv | Hv];
      destruct (Z.eqb_spec 0x5678 (device d)) as [Hd | Hd]; cbn [andb].
    - rewrite <- Hv, <- Hd. split; reflexivity.
    - split; [discriminate | intros Heq; injection Heq; intros; congruence].
    - split; [discriminate | intros Heq; injection Heq; intros; congruence].
    - split; [discriminate | intros Heq; injection Heq; intros; congruence]. }
  split; exact H.
Qed.

(** ** What a probe leaves for later *)

Ltac remove_cases m :=
  let H := fresh "Hrun" in
  pose proof (remove_outcome_total m) as H;
  destruct (fpga_pci_remove m) as [[? ?] ?];
  inversion H; subst; clear H;
  cbn [result calls final fst snd].

Lemma remove_calls_ignore_tables (m : machine) (maps : list mapping)
    (pool : list dma_buf) (acts : list irqaction) :
  calls (fpga_pci_remove (set_iomaps maps (set_dma_pool pool (set_irq_actions acts m)))) =
  calls (fpga_pci_remove m).
Proof.
  rewrite (remove_calls_strip m).
  rewrite (remove_calls_strip (set_iomaps _ _)).
  reflexivity.
Qed.

(** The removal of a probed device gives back neither the write-combined
    mapping nor the buffer the probe was given. *)
Lemma remove_skips_probe_handles (m : machine) (m' : machine) :
  0 < bar0_len m ->
  dev_of m' = dev_of m ->
  next_va m' =
    (next_va m + Z.to_pos (bar0_len m) + Z.to_pos (bar0_len m) + 4096)%positive ->
  bar0_len m' = bar0_len m ->
  ~ In (EvIounmap (wc_va m)) (calls (fpga_pci_remove m')) /\
  forall size b : Z,
    ~ In (EvDmaFree (dev_of m) size (dma_cpu m) b) (calls (fpga_pci_remove m')).
Proof.
  intros Hlen Hdev Hva Hbar.
  remove_cases m'; unfold remove_calls; cbn [In]; rewrite ?Hva, ?Hbar.
  all: split; [ | intros size b ].
  all: intros Hin;
    repeat match goal with
           | H : _ \/ _ |- _ => destruct H as [H | H]
           end;
    try discriminate; try contradiction.
  all: unfold wc_va, dma_cpu in *; injection Hin; intros; lia.
Qed.

(** C9: after a successful probe the device record differs from what it was
    in three fields only: one more enable, the regions owned by the driver,
    and the per-device slot, which holds the address of the MMIO mapping:
    the one value the probe published.  That value is neither the address of
    the write-combined mapping nor the CPU address of the DMA buffer.  The
    calls of a later removal are the same whatever mappings, buffers and
    registrations the host holds, and none of them gives back the
    write-combined mapping or the DMA buffer of the probe. *)
Theorem probe_records_only_mmio_handle (ent : pci_device_id) (m : machine) :
  result (fpga_pci_probe ent m) = 0 ->
  exists hw wc cpu bus : Z,
    In (EvIomap (devfn (pdev m)) 0 (resource_len (pdev m) 0) hw)
       (calls (fpga_pci_probe ent m)) /\
    In (EvIoremapWc (resource_start (pdev m) 0) (resource_len (pdev m) 0) wc)
       (calls (fpga_pci_probe ent m)) /\
    In (EvDmaAlloc (devfn (pdev m)) 4096 GFP_KERNEL cpu bus)
       (calls (fpga_pci_probe ent m)) /\
    pick published (calls (fpga_pci_probe ent m)) = [hw] /\
    pdev (final (fpga_pci_probe ent m)) =
      set_driver_data hw
        (set_regions_owner (Some DRIVER_NAME)
           (set_enable_cnt (S (enable_cnt (pdev m))) (pdev m))) /\
    hw <> wc /\ hw <> cpu /\
    (forall (maps : list mapping) (pool : list dma_buf) (acts : list irqaction),
        calls (fpga_pci_remove
                 (set_iomaps maps
                    (set_dma_pool pool
                       (set_irq_actions acts (final (fpga_pci_probe ent m)))))) =
        calls (fpga_pci_remove (final (fpga_pci_probe ent m)))) /\
    ~ In (EvIounmap wc) (calls (fpga_pci_remove (final (fpga_pci_probe ent m)))) /\
    (forall size b : Z,
        ~ In (EvDmaFree (devfn (pdev m)) size cpu b)
             (calls (fpga_pci_remove (final (fpga_pci_probe ent m))))).
Proof.
  probe_cases ent m; intros Hok; try discriminate Hok;
    try (exfalso; match goal with H : _ <> 0 |- _ => apply H; exact Hok end).
  exists (mmio_va m), (wc_va m), (dma_cpu m), (dma_bus m).
  repeat match goal with |- _ /\ _ => split end.
  - cbn. auto.
  - cbn. auto 6.
  - cbn. auto 7.
  - reflexivity.
  - reflexivity.
  - unfold mmio_va, wc_va. intros Heq. injection Heq. lia.
  - unfold mmio_va, dma_cpu. intros Heq. injection Heq. lia.
  - intros maps pool acts. apply remove_calls_ignore_tables.
  - eapply remove_skips_probe_handles; [eassumption | reflexivity ..].
  - eapply remove_skips_probe_handles; [eassumption | reflexivity ..].
Qed.

Lemma probe_records_only_mmio_handle_witness :
  exists hw wc cpu bus : Z,
    In (EvIomap (devfn (pdev (boot []))) 0 (resource_len (pdev (boot [])) 0) hw)
       (calls (fpga_pci_probe board_id (boot []))) /\
    In (EvIoremapWc (resource_start (pdev (boot [])) 0)
          (resource_len (pdev (boot [])) 0) wc)
       (calls (fpga_pci_probe board_id (boot []))) /\
    In (EvDmaAlloc (devfn (pdev (boot []))) 4096 GFP_KERNEL cpu bus)
       (calls (fpga_pci_probe board_id (boot []))) /\
    pick published (calls (fpga_pci_probe board_id (boot []))) = [hw] /\
    pdev (final (fpga_pci_probe board_id (boot []))) =
      set_driver_data hw
        (set_regions_owner (Some DRIVER_NAME)
           (set_enable_cnt (S (enable_cnt (pdev (boot [])))) (pdev (boot [])))) /\
    hw <> wc /\ hw <> cpu /\
    (forall (maps : list mapping) (pool : list dma_buf) (acts : list irqaction),
        calls (fpga_pci_remove
                 (set_iomaps maps
                    (set_dma_pool pool
                       (set_irq_actions acts
                          (final (fpga_pci_probe board_id (boot []))))))) =
        calls (fpga_pci_remove (final (fpga_pci_probe board_id (boot []))))) /\
    ~ In (EvIounmap wc)
         (calls (fpga_pci_remove (final (fpga_pci_probe board_id (boot []))))) /\
    (forall size b : Z,
        ~ In (EvDmaFree (devfn (pdev (boot []))) size cpu b)
             (calls (fpga_pci_remove (final (fpga_pci_probe board_id (boot [])))))).
Proof.
  apply (probe_records_only_mmio_handle board_id (boot [])).
  vm_compute. reflexivity.
Defined.

(** ** Removal *)

(** X5: whatever the host's state, a removal gives back in the order
    interrupt, DMA buffer, write-combined mapping, MMIO mapping, regions,
    enable: the reverse of the pipeline. *)
Lemma remove_releases_in_reverse_order (m : machine) :
  pick releases (calls (fpga_pci_remove m)) = rev pipeline.
Proof.
  remove_cases m; reflexivity.
Qed.

(** X6: whatever the host's state, the calls of a removal are the nine of
    [remove_calls]: what it unmaps and frees is what its own [ioremap_wc]
    and [dma_alloc_coherent] have just returned (null when they failed);
    only the MMIO address comes from the per-device slot. *)
Lemma remove_releases_its_own_allocations (m : machine) :
  exists w c b : Z, calls (fpga_pci_remove m) = remove_calls m w c b.
Proof.
  remove_cases m; eauto.
Qed.

(** X8: after a successful probe and the removal, the host holds, on top
    of the mappings and buffers it held before the probe, the write-combined
    mapping and the DMA buffer of the probe. *)
Lemma remove_after_probe_leaks (ent : pci_device_id) (m : machine) :
  result (fpga_pci_probe ent m) = 0 ->
  iomaps (final (fpga_pci_remove (final (fpga_pci_probe ent m)))) =
    wc_mapping m :: iomaps m /\
  dma_pool (final (fpga_pci_remove (final (fpga_pci_probe ent m)))) =
    pinned_buffer m :: dma_pool m.
Proof.
  probe_cases ent m; intros Hok; try discriminate Hok;
    try (exfalso; match goal with H : _ <> 0 |- _ => apply H; exact Hok end).
  match goal with
  | |- context [fpga_pci_remove ?M] => remove_cases M
  end.
  all: unfold removed_state, unmap; cbn; rewrite ?pos_add_eqb_l, ?Pos.eqb_refl;
    split; reflexivity.
Qed.

(** C1, at a board whose probe succeeded: the removal gives back in the
    reverse order of acquisition, but it first maps region 0 write-combined
    again and
    allocates a second DMA buffer, and it is this new mapping (at 139264) and
    this new buffer (204800 / 12288) that it unmaps and frees; the mapping
    (at 69632) and the buffer (135168 / 8192) the probe was given stay with
    the host. *)
Theorem remove_recomputes_wc_and_dma_handles :
  result (fpga_pci_probe board_id (boot [])) = 0 /\
  calls (fpga_pci_probe board_id (boot [])) =
    [EvEnable 8 0;
     EvRequestRegions 8 "fpga_pci" 0;
     EvIomap 8 0 65536 4096;
     EvIoremapWc 4261412864 65536 69632;
     EvDmaAlloc 8 4096 GFP_KERNEL 135168 8192;
     EvSetDrvdata 8 4096;
     EvRequestIrq 11 handler_fpga_pci_irq_handler 128 "fpga_pci" 8 0;
     EvPrintk KERN_INFO "FPGA PCI device initialized successfully\n" []] /\
  calls (fpga_pci_remove (final (fpga_pci_probe board_id (boot [])))) =
    [EvIoremapWc 4261412864 65536 139264;
     EvDmaAlloc 8 4096 GFP_KERNEL 204800 12288;
     EvFreeIrq 11 8;
     EvDmaFree 8 4096 204800 12288;
     EvIounmap 139264;
     EvPciIounmap 8 4096;
     EvReleaseRegions 8;
     EvDisable 8;
     EvPrintk KERN_INFO "FPGA PCI device removed\n" []] /\
  iomaps (final (fpga_pci_remove (final (fpga_pci_probe board_id (boot []))))) =
    [{| m_va := 69632; m_pa := 4261412864; m_len := 65536;
        m_attr := WriteCombined |}] /\
  dma_pool (final (fpga_pci_remove (final (fpga_pci_probe board_id (boot []))))) =
    [{| d_dev := 8; d_size := 4096; d_cpu := 135168; d_bus := 8192 |}] /\
  live_count (final (fpga_pci_remove (final (fpga_pci_probe board_id (boot []))))) =
    2%nat.
Proof.
  vm_compute. repeat split.
Qed.

(** ** The per-device slot on a failed probe *)

(** X3: a probe that fails before the interrupt step (the host grants
    fewer than five steps) has not written the per-device slot and leaves the
    device record as it was; one that fails at the interrupt step (the host
    grants five) has written the slot once and leaves the address of the
    MMIO mapping in it, although it has unmapped that address and the host's
    mappings are those of before the probe. *)
Theorem probe_failure_device_record (ent : pci_device_id) (m : machine) :
  result (fpga_pci_probe ent m) <> 0 ->
  pick acquires (calls (fpga_pci_probe ent m)) = outcome_shape (grants m) /\
  if Nat.eqb (grants m) 5
  then
    In (EvIomap (devfn (pdev m)) 0 (resource_len (pdev m) 0) (Z.pos (next_va m)))
       (calls (fpga_pci_probe ent m)) /\
    pick published (calls (fpga_pci_probe ent m)) = [Z.pos (next_va m)] /\
    pdev (final (fpga_pci_probe ent m)) =
      set_driver_data (Z.pos (next_va m)) (pdev m) /\
    In (EvPciIounmap (devfn (pdev m)) (Z.pos (next_va m)))
       (calls (fpga_pci_probe ent m)) /\
    iomaps (final (fpga_pci_probe ent m)) = iomaps m
  else
    pick published (calls (fpga_pci_probe ent m)) = [] /\
    pdev (final (fpga_pci_probe ent m)) = pdev m.
Proof.
  granted_cases ent m; settle; intros Hfail;
    try (contradiction Hfail; reflexivity).
  all: split; [reflexivity | cbn [Nat.eqb]].
  1-5: split; reflexivity.
  repeat split; cbn; auto 12.
Qed.

(** C2, at a board whose interrupt line is refused: the probe returns the
    host's -16 with every resource given back, yet the per-device slot,
    empty before the probe, now holds 4096, the address of the MMIO mapping
    that the probe has just unmapped. *)
Theorem probe_irq_failure_leaves_stale_drvdata :
  result (fpga_pci_probe board_id (boot [0; 0; 0; 0; 0; -16])) = -16 /\
  pick acquires (calls (fpga_pci_probe board_id (boot [0; 0; 0; 0; 0; -16]))) =
    outcome_shape 5 /\
  pick published (calls (fpga_pci_probe board_id (boot [0; 0; 0; 0; 0; -16]))) =
    [4096] /\
  driver_data (pdev (boot [0; 0; 0; 0; 0; -16])) = 0 /\
  driver_data (pdev (final (fpga_pci_probe board_id (boot [0; 0; 0; 0; 0; -16])))) =
    4096 /\
  iomaps (final (fpga_pci_probe board_id (boot [0; 0; 0; 0; 0; -16]))) = [] /\
  live_count (final (fpga_pci_probe board_id (boot [0; 0; 0; 0; 0; -16]))) = 0%nat.
Proof.
  vm_compute. repeat split.
Qed.

(** ** The driver without DMA buffer and interrupt, for comparison *)

(** X12: in [fpga_pci.c] the removal gives back in the order MMIO mapping,
    regions, enable; after a successful probe the address it unmaps is the
    one the probe published, and the host is left holding what it held
    before the probe. *)
Lemma basic_probe_then_remove_restores (ent : pci_device_id) (m : machine) :
  result (FpgaPci.fpga_pci_probe ent m) = 0 ->
  pick releases
    (calls (FpgaPci.fpga_pci_remove (final (FpgaPci.fpga_pci_probe ent m)))) =
    [MapMmio; Reserve; Enable] /\
  pick published (calls (FpgaPci.fpga_pci_probe ent m)) =
    pick (fun e => match e with EvPciIounmap _ va => Some va | _ => None end)
      (calls (FpgaPci.fpga_pci_remove (final (FpgaPci.fpga_pci_probe ent m)))) /\
  holdings (final (FpgaPci.fpga_pci_remove (final (FpgaPci.fpga_pci_probe ent m)))) =
    holdings m.
Proof.
  open_machine m.
  destruct (FpgaPci.fpga_pci_probe ent _) as [[r t] m1] eqn:Ep.
  revert Ep. unfold FpgaPci.fpga_pci_probe.
  run; intros [= <- <- <-] Hok; try discriminate Hok.
  all: unfold FpgaPci.fpga_pci_remove; run; repeat split.
Qed.

(** ** More on the two drivers *)

Lemma Forall_zero_firstn (n : nat) (l : list Z) :
  Forall (fun e => e = 0) l -> Forall (fun e => e = 0) (firstn n l).
Proof.
  revert l. induction n as [| n IH]; intros [| x l] H; cbn; auto.
  inversion H; subst. constructor; auto.
Qed.

Lemma Forall_zero_skipn (n : nat) (l : list Z) :
  Forall (fun e => e = 0) l -> Forall (fun e => e = 0) (skipn n l).
Proof.
  revert l. induction n as [| n IH]; intros [| x l] H; cbn; auto.
  inversion H; subst. auto.
Qed.

(** Every run of the probe of [fpga_pci.c] is one of the four outcomes. *)
Lemma basic_probe_outcome_total (ent : pci_device_id) (m : machine) :
  basic_probe_outcome m (FpgaPci.fpga_pci_probe ent m).
Proof.
  open_machine m.
  match goal with
  | |- basic_probe_outcome ?M _ => remember M as m0 eqn:Em
  end.
  remember (FpgaPci.fpga_pci_probe ent m0) as run eqn:Er.
  rewrite Em in Er. revert Er. unfold FpgaPci.fpga_pci_probe.
  run; intros ->; subst m0;
    repeat match goal with
           | H : (_ <=? 0) = false |- _ => apply Z.leb_gt in H
           | H : (_ =? 0) = false |- _ => apply Z.eqb_neq in H
           end.
  all: try (apply basic_enable_failed; discriminate).
  all: try (apply basic_reserve_failed; discriminate).
  all: try apply basic_mmio_failed.
  all: try (apply basic_succeeded; cbn; [lia | assumption | reflexivity]).
Qed.

(** ** Beyond the pipeline: more on the pinned probe *)

Ltac basic_cases ent m :=
  let H := fresh "Hrun" in
  pose proof (basic_probe_outcome_total ent m) as H;
  destruct (FpgaPci.fpga_pci_probe ent m) as [[? ?] ?];
  inversion H; subst; clear H;
  repeat match goal with
         | H : ?e <> 0 |- _ =>
             is_var e;
             lazymatch goal with
             | _ : (e =? 0) = false |- _ => fail
             | _ => assert ((e =? 0) = false) by (apply Z.eqb_neq; exact H)
             end
         end;
  cbn [result calls final fst snd pick acquires releases reported published
       taken given];
  repeat match goal with
         | E : (_ =? 0) = false |- _ => rewrite E
         end.

(** X1: a probe succeeds when the host refuses none of its six calls,
    nobody owns the regions of the device, and its region 0 is assigned and
    not empty. *)
Theorem probe_succeeds_when_host_agrees (ent : pci_device_id) (m : machine) :
  Forall (fun e => e = 0) (firstn 6 (faults m)) ->
  regions_owner (pdev m) = None ->
  0 < resource_len (pdev m) 0 ->
  resource_start (pdev m) 0 <> 0 ->
  result (fpga_pci_probe ent m) = 0.
Proof.
  intros Hfs Hown Hlen Hstart. apply probe_ok_when_agreed; assumption.
Qed.

Lemma probe_succeeds_when_host_agrees_witness :
  result (fpga_pci_probe board_id (boot [0; 0])) = 0.
Proof.
  apply (probe_succeeds_when_host_agrees board_id (boot [0; 0])).
  - repeat constructor.
  - reflexivity.
  - reflexivity.
  - vm_compute. discriminate.
Defined.

(** X2: a failed probe gives back exactly the handles it was given, last
    taken first: the address each unmap names is the address the mapping
    call returned, and the CPU and bus addresses it frees are the pair the
    allocation returned. *)
Theorem probe_unwinding_returns_what_it_took (ent : pci_device_id) (m : machine) :
  result (fpga_pci_probe ent m) <> 0 ->
  pick given (calls (fpga_pci_probe ent m)) =
  rev (pick taken (calls (fpga_pci_probe ent m))).
Proof.
  probe_cases ent m; intros Hfail; try (contradiction Hfail; reflexivity);
  cbn [pick taken given]; reflexivity.
Qed.

Lemma probe_unwinding_returns_what_it_took_witness :
  pick given (calls (fpga_pci_probe board_id (boot [0; 0; 0; 0; 0; -16]))) =
  rev (pick taken (calls (fpga_pci_probe board_id (boot [0; 0; 0; 0; 0; -16])))).
Proof.
  apply (probe_unwinding_returns_what_it_took board_id (boot [0; 0; 0; 0; 0; -16])).
  vm_compute. discriminate.
Defined.

Lemma probe_failure_device_record_witness :
  pick acquires (calls (fpga_pci_probe board_id (boot [0; 0; 0; 0; 0; -16]))) =
    outcome_shape (grants (boot [0; 0; 0; 0; 0; -16])) /\
  In (EvIomap (devfn (pdev (boot [0; 0; 0; 0; 0; -16]))) 0
        (resource_len (pdev (boot [0; 0; 0; 0; 0; -16])) 0)
        (Z.pos (next_va (boot [0; 0; 0; 0; 0; -16]))))
     (calls (fpga_pci_probe board_id (boot [0; 0; 0; 0; 0; -16]))) /\
  pick published (calls (fpga_pci_probe board_id (boot [0; 0; 0; 0; 0; -16]))) =
    [Z.pos (next_va (boot [0; 0; 0; 0; 0; -16]))] /\
  pdev (final (fpga_pci_probe board_id (boot [0; 0; 0; 0; 0; -16]))) =
    set_driver_data (Z.pos (next_va (boot [0; 0; 0; 0; 0; -16])))
      (pdev (boot [0; 0; 0; 0; 0; -16])) /\
  In (EvPciIounmap (devfn (pdev (boot [0; 0; 0; 0; 0; -16])))
        (Z.pos (next_va (boot [0; 0; 0; 0; 0; -16]))))
     (calls (fpga_pci_probe board_id (boot [0; 0; 0; 0; 0; -16]))) /\
  iomaps (final (fpga_pci_probe board_id (boot [0; 0; 0; 0; 0; -16]))) =
    iomaps (boot [0; 0; 0; 0; 0; -16]).
Proof.
  apply (probe_failure_device_record board_id (boot [0; 0; 0; 0; 0; -16])).
  vm_compute. discriminate.
Defined.



(** ** Beyond the pipeline: more on the pinned removal *)

(** X7: whatever the host's state, and whatever its own two allocations do,
    a removal changes what the host holds in this way only: one enable
    less, the regions released, the mapping at the address in the per-device
    slot (if that is not null) unmapped, the registration on the device's
    line for the device dropped.  The DMA buffers held before are all still
    held, and the per-device slot keeps its value. *)
Theorem remove_net_effect (m : machine) :
  holdings (final (fpga_pci_remove m)) =
    (Nat.pred (enable_cnt (pdev m)), None,
     (if driver_data (pdev m) =? 0 then iomaps m
      else drop_mapping (driver_data (pdev m)) (iomaps m)),
     dma_pool m,
     drop_action (irq (pdev m)) (devfn (pdev m)) (irq_actions m)) /\
  driver_data (pdev (final (fpga_pci_remove m))) = driver_data (pdev m).
Proof.
  remove_cases m; split; reflexivity.
Qed.

Lemma remove_after_probe_leaks_witness :
  iomaps (final (fpga_pci_remove (final (fpga_pci_probe board_id (boot []))))) =
    wc_mapping (boot []) :: iomaps (boot []) /\
  dma_pool (final (fpga_pci_remove (final (fpga_pci_probe board_id (boot []))))) =
    pinned_buffer (boot []) :: dma_pool (boot []).
Proof.
  apply (remove_after_probe_leaks board_id (boot [])).
  vm_compute. reflexivity.
Defined.

Lemma probe_ok (ent : pci_device_id) (m : machine) :
  willing m -> result (fpga_pci_probe ent m) = 0.
Proof.
  intros (Hf & Ho & Hl & Hs).
  apply probe_ok_when_agreed; auto using Forall_zero_firstn.
Qed.

Lemma rebind_once (ent : pci_device_id) (m : machine) :
  willing m ->
  willing (rebind ent m) /\
  holdings (rebind ent m) =
    (enable_cnt (pdev m), None, wc_mapping m :: iomaps m,
     pinned_buffer m :: dma_pool m, irq_actions m).
Proof.
  intros Hw. pose proof (probe_ok ent m Hw) as Hok.
  destruct Hw as (Hf & Ho & Hl & Hs).
  unfold rebind. revert Hok.
  probe_cases ent m; intros Hok; try discriminate Hok;
    try (exfalso; match goal with H : _ <> 0 |- _ => apply H; exact Hok end).
  match goal with
  | |- context [fpga_pci_remove ?M] => remove_cases M
  end.
  all: unfold willing, removed_state, unmap, spent, holdings; cbn;
    rewrite ?pos_add_eqb_l, ?Pos.eqb_refl, ?Z.eqb_refl; cbn.
  all: repeat split; auto.
  all: try (apply (Forall_zero_skipn 2 (skipn 6 (faults m)));
            apply Forall_zero_skipn; assumption).
Qed.

(** X9: on a host that refuses nothing, [n] cycles of probe and removal
    leave the device as enabled and as unowned as before and its interrupt
    registrations as before, but the host holds [n] mappings and [n] DMA
    buffers more: two live resources more per cycle. *)
Theorem rebinding_leaks_two_per_cycle (ent : pci_device_id) (n : nat) (m : machine) :
  willing m ->
  enable_cnt (pdev (rebind_n ent n m)) = enable_cnt (pdev m) /\
  regions_owner (pdev (rebind_n ent n m)) = None /\
  irq_actions (rebind_n ent n m) = irq_actions m /\
  List.length (iomaps (rebind_n ent n m)) = (n + List.length (iomaps m))%nat /\
  List.length (dma_pool (rebind_n ent n m)) = (n + List.length (dma_pool m))%nat /\
  live_count (rebind_n ent n m) = (2 * n + live_count m)%nat.
Proof.
  revert m. induction n as [| n IH]; intros m Hw.
  - destruct Hw as (Hf & Ho & Hl & Hs). cbn. repeat split; auto.
  - destruct (rebind_once ent m Hw) as [Hw' Hh].
    specialize (IH _ Hw'). cbn [rebind_n].
    destruct IH as (He & Hr & Hi & Hm & Hd & Hc).
    unfold holdings in Hh. injection Hh as H1 H2 H3 H4 H5.
    destruct Hw as (Hf & Ho & Hl & Hs).
    rewrite He, Hr, Hi, Hm, Hd, Hc, H1, H3, H4, H5.
    unfold live_count. rewrite H1, H2, H3, H4, H5, Ho. cbn [List.length].
    repeat split; lia.
Qed.

Lemma rebinding_leaks_two_per_cycle_witness :
  enable_cnt (pdev (rebind_n board_id 3 (boot []))) = enable_cnt (pdev (boot [])) /\
  regions_owner (pdev (rebind_n board_id 3 (boot []))) = None /\
  irq_actions (rebind_n board_id 3 (boot [])) = irq_actions (boot []) /\
  List.length (iomaps (rebind_n board_id 3 (boot []))) =
    (3 + List.length (iomaps (boot [])))%nat /\
  List.length (dma_pool (rebind_n board_id 3 (boot []))) =
    (3 + List.length (dma_pool (boot [])))%nat /\
  live_count (rebind_n board_id 3 (boot [])) = (2 * 3 + live_count (boot []))%nat.
Proof.
  apply (rebinding_leaks_two_per_cycle board_id 3 (boot [])).
  unfold willing. cbn. repeat split.
  - constructor.
  - discriminate.
Defined.

(** ** The probe and the removal of [fpga_pci.c] *)

(** X10: when the probe of [fpga_pci.c] fails, it failed at one of its
    three steps after the earlier ones yielded; it gives back the earlier
    ones in reverse order, has not written the per-device slot, and leaves
    the device record and what the host holds as they were. *)
Theorem basic_probe_failure_unwinds (ent : pci_device_id) (m : machine) :
  result (FpgaPci.fpga_pci_probe ent m) <> 0 ->
  exists n : nat,
    (n < 3)%nat /\
    pick acquires (calls (FpgaPci.fpga_pci_probe ent m)) = outcome_shape n /\
    pick releases (calls (FpgaPci.fpga_pci_probe ent m)) = rev (firstn n pipeline) /\
    pick published (calls (FpgaPci.fpga_pci_probe ent m)) = [] /\
    pdev (final (FpgaPci.fpga_pci_probe ent m)) = pdev m /\
    holdings (final (FpgaPci.fpga_pci_probe ent m)) = holdings m.
Proof.
  basic_cases ent m; intros Hfail;
    [ exists 0%nat | exists 1%nat | exists 2%nat
    | contradiction Hfail; reflexivity ].
  all: repeat split; try lia; reflexivity.
Qed.

Lemma basic_probe_failure_unwinds_witness :
  exists n : nat,
    (n < 3)%nat /\
    pick acquires (calls (FpgaPci.fpga_pci_probe board_id (boot [0; 0; 1]))) =
      outcome_shape n /\
    pick releases (calls (FpgaPci.fpga_pci_probe board_id (boot [0; 0; 1]))) =
      rev (firstn n pipeline) /\
    pick published (calls (FpgaPci.fpga_pci_probe board_id (boot [0; 0; 1]))) = [] /\
    pdev (final (FpgaPci.fpga_pci_probe board_id (boot [0; 0; 1]))) =
      pdev (boot [0; 0; 1]) /\
    holdings (final (FpgaPci.fpga_pci_probe board_id (boot [0; 0; 1]))) =
      holdings (boot [0; 0; 1]).
Proof.
  apply (basic_probe_failure_unwinds board_id (boot [0; 0; 1])).
  vm_compute. discriminate.
Defined.

Lemma translate_head (x : mapping) (l : list mapping) (off : Z) :
  0 <= off < m_len x ->
  translate (x :: l) (m_va x + off) = Some (m_pa x + off).
Proof.
  intros Hoff. cbn [translate].
  replace (m_va x <=? m_va x + off) with true
    by (symmetry; apply Z.leb_le; lia).
  replace (m_va x + off <? m_va x + m_len x) with true
    by (symmetry; apply Z.ltb_lt; lia).
  cbn [andb]. f_equal. lia.
Qed.

(** X11: when the probe of [fpga_pci.c] succeeds, its three steps all
    yielded, the host holds three things more, and the per-device slot holds
    a non-null address that is the start of a live uncached mapping of
    region 0: every offset inside the region translates, from that address,
    to the same offset from the region's physical base. *)
Theorem basic_probe_publishes_live_mapping (ent : pci_device_id) (m : machine) :
  result (FpgaPci.fpga_pci_probe ent m) = 0 ->
  pick acquires (calls (FpgaPci.fpga_pci_probe ent m)) =
    [(Enable, true); (Reserve, true); (MapMmio, true)] /\
  driver_data (pdev (final (FpgaPci.fpga_pci_probe ent m))) <> 0 /\
  pick published (calls (FpgaPci.fpga_pci_probe ent m)) =
    [driver_data (pdev (final (FpgaPci.fpga_pci_probe ent m)))] /\
  iomaps (final (FpgaPci.fpga_pci_probe ent m)) =
    {| m_va := driver_data (pdev (final (FpgaPci.fpga_pci_probe ent m)));
       m_pa := resource_start (pdev m) 0; m_len := resource_len (pdev m) 0;
       m_attr := Uncached |} :: iomaps m /\
  live_count (final (FpgaPci.fpga_pci_probe ent m)) = (3 + live_count m)%nat /\
  forall off : Z,
    0 <= off < resource_len (pdev m) 0 ->
    translate (iomaps (final (FpgaPci.fpga_pci_probe ent m)))
      (driver_data (pdev (final (FpgaPci.fpga_pci_probe ent m))) + off) =
    Some (resource_start (pdev m) 0 + off).
Proof.
  basic_cases ent m; intros Hok; try discriminate Hok;
    try (exfalso; match goal with H : _ <> 0 |- _ => apply H; exact Hok end).
  repeat match goal with |- _ /\ _ => split end.
  - reflexivity.
  - discriminate.
  - reflexivity.
  - reflexivity.
  - unfold live_count; cbn.
    match goal with H : regions_owner (pdev m) = None |- _ => rewrite H end.
    lia.
  - intros off Hoff.
    match goal with
    | |- translate ?l (?a + off) = _ =>
        change l with (mmio_mapping m :: iomaps m);
        change a with (m_va (mmio_mapping m))
    end.
    apply (translate_head (mmio_mapping m)). exact Hoff.
Qed.

Lemma basic_probe_publishes_live_mapping_witness :
  pick acquires (calls (FpgaPci.fpga_pci_probe board_id (boot []))) =
    [(Enable, true); (Reserve, true); (MapMmio, true)] /\
  driver_data (pdev (final (FpgaPci.fpga_pci_probe board_id (boot [])))) <> 0 /\
  pick published (calls (FpgaPci.fpga_pci_probe board_id (boot []))) =
    [driver_data (pdev (final (FpgaPci.fpga_pci_probe board_id (boot []))))] /\
  iomaps (final (FpgaPci.fpga_pci_probe board_id (boot []))) =
    {| m_va := driver_data (pdev (final (FpgaPci.fpga_pci_probe board_id (boot []))));
       m_pa := resource_start (pdev (boot [])) 0;
       m_len := resource_len (pdev (boot [])) 0;
       m_attr := Uncached |} :: iomaps (boot []) /\
  live_count (final (FpgaPci.fpga_pci_probe board_id (boot []))) =
    (3 + live_count (boot []))%nat /\
  forall off : Z,
    0 <= off < resource_len (pdev (boot [])) 0 ->
    translate (iomaps (final (FpgaPci.fpga_pci_probe board_id (boot []))))
      (driver_data (pdev (final (FpgaPci.fpga_pci_probe board_id (boot [])))) + off) =
    Some (resource_start (pdev (boot [])) 0 + off).
Proof.
  apply (basic_probe_publishes_live_mapping board_id (boot [])).
  vm_compute. reflexivity.
Defined.

Lemma basic_probe_then_remove_restores_witness :
  pick releases
    (calls (FpgaPci.fpga_pci_remove
              (final (FpgaPci.fpga_pci_probe board_id (boot []))))) =
    [MapMmio; Reserve; Enable] /\
  pick published (calls (FpgaPci.fpga_pci_probe board_id (boot []))) =
    pick (fun e => match e with EvPciIounmap _ va => Some va | _ => None end)
      (calls (FpgaPci.fpga_pci_remove
                (final (FpgaPci.fpga_pci_probe board_id (boot []))))) /\
  holdings (final (FpgaPci.fpga_pci_remove
                     (final (FpgaPci.fpga_pci_probe board_id (boot []))))) =
    holdings (boot []).
Proof.
  apply (basic_probe_then_remove_restores board_id (boot [])).
  vm_compute. reflexivity.
Defined.

(** ** The two probes side by side *)

Lemma basic_probe_front (ent : pci_device_id) (m : machine) :
  FpgaPci.fpga_pci_probe ent m =
  probe_front (fun hw_addr =>
    pci_set_drvdata hw_addr ;;
    pr_info "FPGA PCI device initialized successfully\n" [] ;;
    ret 0)%kernel m.
Proof. reflexivity. Qed.

Lemma probe_front_cases (rest1 rest2 : Z -> K Z) (m : machine) :
  (exists r t m',
      r <> 0 /\ probe_front rest1 m = (r, t, m') /\
      probe_front rest2 m = (r, t, m')) \/
  (exists m',
      probe_front rest1 m =
        (let '(r, t, m'') := rest1 (mmio_va m) m' in
         (r, [EvEnable (dev_of m) 0;
              EvRequestRegions (dev_of m) DRIVER_NAME 0;
              EvIomap (dev_of m) 0 (bar0_len m) (mmio_va m)] ++ t, m'')) /\
      probe_front rest2 m =
        (let '(r, t, m'') := rest2 (mmio_va m) m' in
         (r, [EvEnable (dev_of m) 0;
              EvRequestRegions (dev_of m) DRIVER_NAME 0;
              EvIomap (dev_of m) 0 (bar0_len m) (mmio_va m)] ++ t, m''))).
Proof.
  open_machine m. unfold probe_front.
  run;
  first
    [ left; do 3 eexists; refine (conj _ (conj eq_refl eq_refl)); discriminate
    | right;
      match goal with
      | |- context [rest1 _ ?M] =>
          exists M; destruct (rest1 _ M) as [[? ?] ?];
          destruct (rest2 _ M) as [[? ?] ?]; split; reflexivity
      end ].
Qed.

Lemma bind_gets {A B} (f : machine -> A) (k : A -> K B) (m : machine) :
  bind (gets f) k m = k (f m) m.
Proof.
  unfold bind, gets. destruct (k (f m) m) as [[? ?] ?]. reflexivity.
Qed.

Lemma pinned_probe_front (ent : pci_device_id) (m : machine) :
  exists rest, fpga_pci_probe ent m = probe_front rest m.
Proof.
  eexists. unfold fpga_pci_probe. rewrite bind_gets.
  unfold probe_front. reflexivity.
Qed.

(** X13: from the same host state, the probe of [fpga_pci_pinned.c] does
    what the probe of [fpga_pci.c] does as far as the latter goes: when the
    latter fails, the two runs are the same run (same return value, same
    host calls and log lines, same final state); when it succeeds, the
    pinned probe starts with the same three host calls, all three yielding. *)
Theorem pinned_probe_extends_basic (ent : pci_device_id) (m : machine) :
  if result (FpgaPci.fpga_pci_probe ent m) =? 0
  then
    firstn 3 (calls (fpga_pci_probe ent m)) =
    firstn 3 (calls (FpgaPci.fpga_pci_probe ent m)) /\
    pick acquires (firstn 3 (calls (fpga_pci_probe ent m))) =
    [(Enable, true); (Reserve, true); (MapMmio, true)]
  else fpga_pci_probe ent m = FpgaPci.fpga_pci_probe ent m.
Proof.
  destruct (pinned_probe_front ent m) as [rest ->].
  rewrite basic_probe_front.
  match goal with
  | |- context [probe_front rest m = probe_front ?k m] =>
      destruct (probe_front_cases rest k m)
        as [(r & t & m' & Hr & -> & ->) | (m' & -> & ->)]
  end.
  - apply Z.eqb_neq in Hr. cbn [result fst]. rewrite Hr. reflexivity.
  - destruct (rest (mmio_va m) m') as [[r t] m''].
    cbn. split; reflexivity.
Qed.

Lemma basic_probe_ok (ent : pci_device_id) (m : machine) :
  willing m -> result (FpgaPci.fpga_pci_probe ent m) = 0.
Proof.
  open_machine m. unfold willing.
  cbn [faults pdev regions_owner resource_len resource_start].
  intros (Hfs & -> & Hlen & Hstart).
  apply Z.leb_gt in Hlen. apply Z.eqb_neq in Hstart.
  unfold FpgaPci.fpga_pci_probe.
  run.
  all: try reflexivity.
  all: try congruence.
  all: exfalso;
    repeat match goal with
           | H : Forall _ (_ :: _) |- _ =>
               apply Forall_cons_iff in H; destruct H as [? H]
           end;
    discriminate.
Qed.

Lemma basic_restore (ent : pci_device_id) (m : machine) :
  result (FpgaPci.fpga_pci_probe ent m) = 0 ->
  holdings (final (FpgaPci.fpga_pci_remove (final (FpgaPci.fpga_pci_probe ent m)))) =
  holdings m.
Proof.
  basic_cases ent m; intros Hok; try discriminate Hok;
    try (exfalso; match goal with H : _ <> 0 |- _ => apply H; exact Hok end).
  unfold FpgaPci.fpga_pci_remove. unfold_host.
  unfold holdings, spent; cbn. rewrite Pos.eqb_refl.
  match goal with H : regions_owner (pdev m) = None |- _ => rewrite H end.
  reflexivity.
Qed.

(** ** Loading and unloading the drivers *)

Lemma ids_match (d : pci_dev) :
  pci_match_id [PCI_DEVICE 0x1234 0x5678; pci_id_zero] d =
  if (vendor d =? 0x1234) && (device d =? 0x5678)
  then Some (PCI_DEVICE 0x1234 0x5678) else None.
Proof.
  unfold pci_match_id, pci_match_one_device.
  cbn [PCI_DEVICE pci_id_zero id_vendor id_device id_subvendor id_subdevice
       id_class id_class_mask].
  rewrite Z.land_0_r.
  change (0x1234 =? 0) with false. change (0x1234 =? PCI_ANY_ID) with false.
  change (0x5678 =? PCI_ANY_ID) with false.
  change (PCI_ANY_ID =? PCI_ANY_ID) with true.
  change (PCI_ANY_ID =? 0) with false. change (0 =? 0) with true.
  cbn [andb orb].
  rewrite (Z.eqb_sym 0x1234), (Z.eqb_sym 0x5678).
  destruct (vendor d =? 0x1234), (device d =? 0x5678); reflexivity.
Qed.

Lemma next_fault_keeps (m : machine) :
  pdev (final (next_fault m)) = pdev m /\
  holdings (final (next_fault m)) = holdings m /\
  next_va (final (next_fault m)) = next_va m /\
  next_bus (final (next_fault m)) = next_bus m /\
  faults (final (next_fault m)) = tl (faults m) /\
  result (next_fault m) = hd 0 (faults m) /\
  calls (next_fault m) = [].
Proof.
  unfold next_fault, bind, gets, modify, ret, final, result, calls.
  destruct (faults m) as [| f fs] eqn:E; cbn; rewrite ?E; repeat split.
Qed.

(** X14: loading either driver on a bus whose device is not the board
    (vendor 0x1234, device 0x5678) makes no host call for the device: the
    probe is not run, the device stays bound as it was, and its record and
    what the host holds for it are unchanged. *)
Theorem init_skips_foreign_device (b : bus) :
  (vendor (pdev (dev_state b)), device (pdev (dev_state b))) <> (0x1234, 0x5678) ->
  (snd (fst (FpgaPciPinnedModule.fpga_pci_init b)) = [] /\
   bound (snd (FpgaPciPinnedModule.fpga_pci_init b)) = bound b /\
   pdev (dev_state (snd (FpgaPciPinnedModule.fpga_pci_init b))) = pdev (dev_state b) /\
   holdings (dev_state (snd (FpgaPciPinnedModule.fpga_pci_init b))) =
     holdings (dev_state b)) /\
  (snd (fst (FpgaPciModule.fpga_pci_init b)) = [] /\
   bound (snd (FpgaPciModule.fpga_pci_init b)) = bound b /\
   pdev (dev_state (snd (FpgaPciModule.fpga_pci_init b))) = pdev (dev_state b) /\
   holdings (dev_state (snd (FpgaPciModule.fpga_pci_init b))) =
     holdings (dev_state b)).
Proof.
  intros Hforeign.
  assert (Hno : (vendor (pdev (dev_state b)) =? 0x1234) &&
                (device (pdev (dev_state b)) =? 0x5678) = false).
  { destruct (Z.eqb_spec (vendor (pdev (dev_state b))) 0x1234) as [Hv | Hv];
      destruct (Z.eqb_spec (device (pdev (dev_state b))) 0x5678) as [Hd | Hd];
      try reflexivity.
    contradiction Hforeign. rewrite Hv, Hd. reflexivity. }
  destruct (next_fault_keeps (dev_state b)) as (Hp & Hh & _ & _ & _ & _ & _).
  unfold FpgaPciPinnedModule.fpga_pci_init, FpgaPciModule.fpga_pci_init,
    pci_register_driver, final in *.
  destruct (next_fault (dev_state b)) as [[e t0] m1]. cbn [snd] in Hp, Hh.
  cbn [drv_id_table FpgaPciPinnedModule.fpga_pci_driver
       FpgaPciModule.fpga_pci_driver].
  unfold FpgaPciPinned.fpga_pci_ids, FpgaPci.fpga_pci_ids.
  rewrite ids_match, Hp, Hno.
  destruct (negb (e =? 0)), (bound b); cbn; auto.
Qed.

Lemma init_skips_foreign_device_witness :
  (snd (fst (FpgaPciPinnedModule.fpga_pci_init (cold stranger))) = [] /\
   bound (snd (FpgaPciPinnedModule.fpga_pci_init (cold stranger))) =
     bound (cold stranger) /\
   pdev (dev_state (snd (FpgaPciPinnedModule.fpga_pci_init (cold stranger)))) =
     pdev (dev_state (cold stranger)) /\
   holdings (dev_state (snd (FpgaPciPinnedModule.fpga_pci_init (cold stranger)))) =
     holdings (dev_state (cold stranger))) /\
  (snd (fst (FpgaPciModule.fpga_pci_init (cold stranger))) = [] /\
   bound (snd (FpgaPciModule.fpga_pci_init (cold stranger))) =
     bound (cold stranger) /\
   pdev (dev_state (snd (FpgaPciModule.fpga_pci_init (cold stranger)))) =
     pdev (dev_state (cold stranger)) /\
   holdings (dev_state (snd (FpgaPciModule.fpga_pci_init (cold stranger)))) =
     holdings (dev_state (cold stranger))).
Proof.
  apply (init_skips_foreign_device (cold stranger)).
  vm_compute. discriminate.
Defined.

Lemma willing_after_decision (m : machine) :
  willing m ->
  result (next_fault m) = 0 /\ willing (final (next_fault m)).
Proof.
  intros (Hf & Ho & Hl & Hs).
  destruct (next_fault_keeps m) as (Hp & _ & _ & _ & Hfs & Hr & _).
  split.
  - rewrite Hr. destruct Hf; [reflexivity | assumption].
  - unfold willing. rewrite Hp, Hfs. repeat split; auto.
    destruct Hf; [constructor | assumption].
Qed.

Lemma matching_row (d : pci_dev) :
  vendor d = 0x1234 -> device d = 0x5678 ->
  pci_match_id [PCI_DEVICE 0x1234 0x5678; pci_id_zero] d =
  Some (PCI_DEVICE 0x1234 0x5678).
Proof.
  intros Hv Hd. rewrite ids_match, Hv, Hd. reflexivity.
Qed.

(** X15: loading the pinned driver on a bus with the board unbound, the
    host accepting the registration: the load reports success whatever the
    probe does; the probe is run (its attempts are a prefix of the pipeline);
    the board ends bound to the driver exactly when all six steps yielded,
    and otherwise unbound with the host holding what it held before. *)
Theorem init_binds_only_on_probe_success (b : bus) :
  bound b = None ->
  vendor (pdev (dev_state b)) = 0x1234 ->
  device (pdev (dev_state b)) = 0x5678 ->
  hd 0 (faults (dev_state b)) = 0 ->
  fst (fst (FpgaPciPinnedModule.fpga_pci_init b)) = 0 /\
  exists n : nat,
    (n <= 6)%nat /\
    pick acquires (snd (fst (FpgaPciPinnedModule.fpga_pci_init b))) =
      outcome_shape n /\
    (bound (snd (FpgaPciPinnedModule.fpga_pci_init b)) =
       Some FpgaPciPinned.DRIVER_NAME <-> n = 6%nat) /\
    ((n < 6)%nat ->
     bound (snd (FpgaPciPinnedModule.fpga_pci_init b)) = None /\
     holdings (dev_state (snd (FpgaPciPinnedModule.fpga_pci_init b))) =
       holdings (dev_state b)).
Proof.
  intros Hb Hv Hd Hacc.
  destruct (next_fault_keeps (dev_state b)) as (Hp & Hh & _ & _ & _ & Hr & _).
  unfold FpgaPciPinnedModule.fpga_pci_init, pci_register_driver, final, result in *.
  destruct (next_fault (dev_state b)) as [[e t0] m1]. cbn [fst snd] in Hp, Hh, Hr.
  rewrite Hr, Hacc, Hb. cbn [negb Z.eqb].
  cbn [drv_id_table drv_probe drv_name FpgaPciPinnedModule.fpga_pci_driver].
  unfold FpgaPciPinned.fpga_pci_ids.
  rewrite matching_row by (rewrite Hp; assumption).
  rewrite <- Hh.
  probe_cases (PCI_DEVICE 0x1234 0x5678) m1; cbn [fst snd bound dev_state];
    (split; [reflexivity | ]);
    [ exists 0%nat | exists 1%nat | exists 2%nat | exists 3%nat
    | exists 4%nat | exists 5%nat | exists 6%nat ].
  all: repeat match goal with
              | E : (_ =? 0) = false |- _ => rewrite E
              end.
  all: split; [lia | split; [reflexivity | split]].
  all: try (split; intros; [discriminate | lia]).
  all: try (intros _; split; reflexivity).
  - split; reflexivity.
  - lia.
Qed.

Lemma init_binds_only_on_probe_success_witness :
  fst (fst (FpgaPciPinnedModule.fpga_pci_init (cold (boot [0; 0; 0; 0; 1])))) = 0 /\
  exists n : nat,
    (n <= 6)%nat /\
    pick acquires
      (snd (fst (FpgaPciPinnedModule.fpga_pci_init (cold (boot [0; 0; 0; 0; 1]))))) =
      outcome_shape n /\
    (bound (snd (FpgaPciPinnedModule.fpga_pci_init (cold (boot [0; 0; 0; 0; 1])))) =
       Some FpgaPciPinned.DRIVER_NAME <-> n = 6%nat) /\
    ((n < 6)%nat ->
     bound (snd (FpgaPciPinnedModule.fpga_pci_init (cold (boot [0; 0; 0; 0; 1])))) =
       None /\
     holdings
       (dev_state (snd (FpgaPciPinnedModule.fpga_pci_init (cold (boot [0; 0; 0; 0; 1]))))) =
       holdings (dev_state (cold (boot [0; 0; 0; 0; 1])))).
Proof.
  apply (init_binds_only_on_probe_success (cold (boot [0; 0; 0; 0; 1])));
    reflexivity.
Defined.

(** X16: loading the pinned driver on a bus with the board unbound and a
    host that refuses nothing binds the board; unloading it then runs the
    removal (releases in the order interrupt, DMA buffer, write-combined
    mapping, MMIO mapping, regions, enable) and unbinds the board, and the
    host is left holding two things more for the board than before the
    load. *)
Theorem load_unload_pinned_leaks (b : bus) :
  bound b = None ->
  vendor (pdev (dev_state b)) = 0x1234 ->
  device (pdev (dev_state b)) = 0x5678 ->
  willing (dev_state b) ->
  fst (fst (FpgaPciPinnedModule.fpga_pci_init b)) = 0 /\
  bound (snd (FpgaPciPinnedModule.fpga_pci_init b)) =
    Some FpgaPciPinned.DRIVER_NAME /\
  pick releases
    (snd (fst (FpgaPciPinnedModule.fpga_pci_exit
                 (snd (FpgaPciPinnedModule.fpga_pci_init b))))) = rev pipeline /\
  bound (snd (FpgaPciPinnedModule.fpga_pci_exit
                (snd (FpgaPciPinnedModule.fpga_pci_init b)))) = None /\
  live_count (dev_state (snd (FpgaPciPinnedModule.fpga_pci_exit
                                (snd (FpgaPciPinnedModule.fpga_pci_init b))))) =
    (2 + live_count (dev_state b))%nat.
Proof.
  intros Hb Hv Hd Hw.
  destruct (next_fault_keeps (dev_state b)) as (Hp & Hh & _ & _ & _ & _ & _).
  destruct (willing_after_decision _ Hw) as [Hr Hw1].
  unfold FpgaPciPinnedModule.fpga_pci_init, FpgaPciPinnedModule.fpga_pci_exit,
    pci_register_driver, pci_unregister_driver, final, result in *.
  destruct (next_fault (dev_state b)) as [[e t0] m1]. cbn [fst snd] in *.
  rewrite Hr, Hb. cbn [negb Z.eqb].
  cbn [drv_id_table drv_probe drv_name drv_remove
       FpgaPciPinnedModule.fpga_pci_driver].
  unfold FpgaPciPinned.fpga_pci_ids.
  rewrite matching_row by (rewrite Hp; assumption).
  pose proof (probe_ok (PCI_DEVICE 0x1234 0x5678) m1 Hw1) as Hok.
  destruct (rebind_once (PCI_DEVICE 0x1234 0x5678) m1 Hw1) as [_ Hre].
  unfold rebind, final, result in *.
  destruct (fpga_pci_probe (PCI_DEVICE 0x1234 0x5678) m1) as [[r t] m2].
  cbn [fst snd] in *. subst r. cbn [Z.eqb bound dev_state fst snd].
  rewrite String.eqb_refl.
  pose proof (remove_outcome_total m2) as Hrm.
  destruct (fpga_pci_remove m2) as [[u t2] m3]. cbn [fst snd bound dev_state] in *.
  repeat split.
  - inversion Hrm; reflexivity.
  - unfold holdings in Hh, Hre. injection Hh as H1 H2 H3 H4 H5.
    injection Hre as R1 R2 R3 R4 R5.
    unfold live_count. rewrite R1, R2, R3, R4, R5, <- H1, <- H2, <- H3, <- H4, <- H5.
    destruct Hw1 as (_ & Ho & _). rewrite Ho. cbn [List.length]. lia.
Qed.

Lemma load_unload_pinned_leaks_witness :
  fst (fst (FpgaPciPinnedModule.fpga_pci_init (cold (boot [])))) = 0 /\
  bound (snd (FpgaPciPinnedModule.fpga_pci_init (cold (boot [])))) =
    Some FpgaPciPinned.DRIVER_NAME /\
  pick releases
    (snd (fst (FpgaPciPinnedModule.fpga_pci_exit
                 (snd (FpgaPciPinnedModule.fpga_pci_init (cold (boot []))))))) =
    rev pipeline /\
  bound (snd (FpgaPciPinnedModule.fpga_pci_exit
                (snd (FpgaPciPinnedModule.fpga_pci_init (cold (boot [])))))) = None /\
  live_count (dev_state (snd (FpgaPciPinnedModule.fpga_pci_exit
                                (snd (FpgaPciPinnedModule.fpga_pci_init (cold (boot []))))))) =
    (2 + live_count (dev_state (cold (boot []))))%nat.
Proof.
  apply (load_unload_pinned_leaks (cold (boot []))); try reflexivity.
  unfold willing. cbn. repeat split.
  - constructor.
  - discriminate.
Defined.

(** X17: loading the driver of [fpga_pci.c] on a bus with the board unbound
    and a host that refuses nothing binds the board; unloading it then
    unbinds the board and leaves the host holding for it exactly what it
    held before the load. *)
Theorem load_unload_basic_restores (b : bus) :
  bound b = None ->
  vendor (pdev (dev_state b)) = 0x1234 ->
  device (pdev (dev_state b)) = 0x5678 ->
  willing (dev_state b) ->
  fst (fst (FpgaPciModule.fpga_pci_init b)) = 0 /\
  bound (snd (FpgaPciModule.fpga_pci_init b)) = Some FpgaPci.DRIVER_NAME /\
  bound (snd (FpgaPciModule.fpga_pci_exit
                (snd (FpgaPciModule.fpga_pci_init b)))) = None /\
  holdings (dev_state (snd (FpgaPciModule.fpga_pci_exit
                              (snd (FpgaPciModule.fpga_pci_init b))))) =
    holdings (dev_state b).
Proof.
  intros Hb Hv Hd Hw.
  destruct (next_fault_keeps (dev_state b)) as (Hp & Hh & _ & _ & _ & _ & _).
  destruct (willing_after_decision _ Hw) as [Hr Hw1].
  unfold FpgaPciModule.fpga_pci_init, FpgaPciModule.fpga_pci_exit,
    pci_register_driver, pci_unregister_driver, final, result in *.
  destruct (next_fault (dev_state b)) as [[e t0] m1]. cbn [fst snd] in *.
  rewrite Hr, Hb. cbn [negb Z.eqb].
  cbn [drv_id_table drv_probe drv_name drv_remove FpgaPciModule.fpga_pci_driver].
  unfold FpgaPci.fpga_pci_ids.
  rewrite matching_row by (rewrite Hp; assumption).
  pose proof (basic_probe_ok (PCI_DEVICE 0x1234 0x5678) m1 Hw1) as Hok.
  pose proof (basic_restore (PCI_DEVICE 0x1234 0x5678) m1 Hok) as Hre.
  unfold final, result in *.
  destruct (FpgaPci.fpga_pci_probe (PCI_DEVICE 0x1234 0x5678) m1) as [[r t] m2].
  cbn [fst snd] in *. subst r. cbn [Z.eqb bound dev_state fst snd].
  rewrite String.eqb_refl.
  destruct (FpgaPci.fpga_pci_remove m2) as [[u t2] m3].
  cbn [fst snd bound dev_state] in *.
  repeat split. congruence.
Qed.

Lemma load_unload_basic_restores_witness :
  fst (fst (FpgaPciModule.fpga_pci_init (cold (boot [])))) = 0 /\
  bound (snd (FpgaPciModule.fpga_pci_init (cold (boot [])))) =
    Some FpgaPci.DRIVER_NAME /\
  bound (snd (FpgaPciModule.fpga_pci_exit
                (snd (FpgaPciModule.fpga_pci_init (cold (boot [])))))) = None /\
  holdings (dev_state (snd (FpgaPciModule.fpga_pci_exit
                              (snd (FpgaPciModule.fpga_pci_init (cold (boot []))))))) =
    holdings (dev_state (cold (boot []))).
Proof.
  apply (load_unload_basic_restores (cold (boot []))); try reflexivity.
  unfold willing. cbn. repeat split.
  - constructor.
  - discriminate.
Defined.

(** X18: when the pinned driver was loaded and its probe of the board
    failed, unloading the driver makes no host call for the board (the
    removal is not run, nothing is released a second time), and the host
    holds for the board what it held before the load. *)
Theorem unload_after_failed_probe_releases_nothing (b : bus) :
  bound b = None ->
  vendor (pdev (dev_state b)) = 0x1234 ->
  device (pdev (dev_state b)) = 0x5678 ->
  hd 0 (faults (dev_state b)) = 0 ->
  bound (snd (FpgaPciPinnedModule.fpga_pci_init b)) = None ->
  snd (fst (FpgaPciPinnedModule.fpga_pci_exit
              (snd (FpgaPciPinnedModule.fpga_pci_init b)))) = [] /\
  holdings (dev_state (snd (FpgaPciPinnedModule.fpga_pci_exit
                              (snd (FpgaPciPinnedModule.fpga_pci_init b))))) =
    holdings (dev_state b).
Proof.
  intros Hb Hv Hd Hacc.
  destruct (next_fault_keeps (dev_state b)) as (Hp & Hh & _ & _ & _ & Hr & _).
  unfold FpgaPciPinnedModule.fpga_pci_init, FpgaPciPinnedModule.fpga_pci_exit,
    pci_register_driver, pci_unregister_driver, final, result in *.
  destruct (next_fault (dev_state b)) as [[e t0] m1]. cbn [fst snd] in Hp, Hh, Hr.
  rewrite Hr, Hacc, Hb. cbn [negb Z.eqb].
  cbn [drv_id_table drv_probe drv_name drv_remove
       FpgaPciPinnedModule.fpga_pci_driver].
  unfold FpgaPciPinned.fpga_pci_ids.
  rewrite matching_row by (rewrite Hp; assumption).
  rewrite <- Hh.
  probe_cases (PCI_DEVICE 0x1234 0x5678) m1; cbn [fst snd bound dev_state];
    repeat match goal with
           | E : (_ =? 0) = false |- _ => rewrite E
           end;
    cbn [Z.eqb]; intros Hunbound; try discriminate Hunbound;
    cbn [fst snd bound dev_state]; split; reflexivity.
Qed.

Lemma unload_after_failed_probe_releases_nothing_witness :
  snd (fst (FpgaPciPinnedModule.fpga_pci_exit
              (snd (FpgaPciPinnedModule.fpga_pci_init (cold (boot [0; 0; 0; 0; 1])))))) =
    [] /\
  holdings
    (dev_state (snd (FpgaPciPinnedModule.fpga_pci_exit
                       (snd (FpgaPciPinnedModule.fpga_pci_init
                               (cold (boot [0; 0; 0; 0; 1]))))))) =
    holdings (dev_state (cold (boot [0; 0; 0; 0; 1]))).
Proof.
  apply (unload_after_failed_probe_releases_nothing (cold (boot [0; 0; 0; 0; 1])));
    reflexivity.
Defined.
